(** * Blog archiver: TOC composition, viewport resolution, batch loop, popup

    A shallow embedding of the archiver's JavaScript sources
    (the [BlogArchiver] class of the CLI tool and the extension popup)
    together with the properties of the design document that can be
    checked against them.

    Conventions of the embedding.
    - JavaScript integers are [Z]; [Math.floor (a * b / c)] on
      non-negative integers below 2^53 is [(a * b) / c] in [Z].
    - PDF coordinates ([x], [y], page width and height) are [Z] in
      hundredths of a PDF point, so that the A4 page of pdf-lib
      (595.28 x 841.89) is exact; [pt n] converts whole points.
    - Measured browser geometry (fractions of CSS pixels) is [Q].
    - A JavaScript string is a [string]; every character stands for
      one UTF-16 code unit, which is what [length] and [substring]
      count.
    - A thrown exception is the [Err] branch of [Result]. *)

From Stdlib Require Import ZArith QArith Qround List String Ascii Bool Arith Lia.
From Stdlib Require Import DecimalString DecimalZ DecimalPos.
Import ListNotations.

Local Open Scope string_scope.
Local Open Scope list_scope.
Local Open Scope Z_scope.

(* ------------------------------------------------------------------ *)
(** * JavaScript primitives used by the sources *)
(* ------------------------------------------------------------------ *)

Module JS.

(** [s.length] *)
Definition length (s : string) : Z := Z.of_nat (String.length s).

(** [s.substring(0, n)] for a non-negative [n]. *)
Definition substring0 (n : nat) (s : string) : string := String.substring 0 n s.

(** [s.startsWith(p)] *)
Definition startsWith (p s : string) : bool := String.prefix p s.

(** [n.toString()] for an integer [n]. *)
Definition toString (n : Z) : string := NilZero.string_of_int (Z.to_int n).

(** Truthiness of a string: only the empty string is falsy. *)
Definition truthy (s : string) : bool :=
  match s with EmptyString => false | _ => true end.

(** White space as [parseInt] and [trim] see it (the ASCII part). *)
Definition isSpace (c : ascii) : bool :=
  let n := nat_of_ascii c in
  ((n =? 32) || (n =? 9) || (n =? 10) || (n =? 11) || (n =? 12) || (n =? 13))%nat.

Fixpoint trimStart (s : string) : string :=
  match s with
  | String c r => if isSpace c then trimStart r else s
  | EmptyString => EmptyString
  end.

(** Value of a character as a digit in base 36, if it is one. *)
Definition digitValue (c : ascii) : option Z :=
  let n := Z.of_nat (nat_of_ascii c) in
  if (48 <=? n) && (n <=? 57) then Some (n - 48)
  else if (97 <=? n) && (n <=? 122) then Some (n - 87)
  else if (65 <=? n) && (n <=? 90) then Some (n - 55)
  else None.

(** Longest prefix of digits of the radix, read as a number;
    [None] when the prefix is empty. *)
Fixpoint digits (radix : Z) (acc : option Z) (s : string) : option Z :=
  match s with
  | String c r =>
      match digitValue c with
      | Some d =>
          if d <? radix
          then digits radix (Some (match acc with Some a => a * radix + d | None => d end)) r
          else acc
      | None => acc
      end
  | EmptyString => acc
  end.

(** [parseInt(s)] without a radix argument: leading white space, an
    optional sign, an optional [0x]/[0X] prefix selecting base 16,
    then the longest run of digits.  [None] is [NaN]. *)
Definition parseInt (s : string) : option Z :=
  let s1 := trimStart s in
  let '(sign, s2) :=
    match s1 with
    | String "-" r => (-1, r)
    | String "+" r => (1, r)
    | _ => (1, s1)
    end in
  let '(radix, s3) :=
    match s2 with
    | String "0" (String "x" r) => (16, r)
    | String "0" (String "X" r) => (16, r)
    | _ => (10, s2)
    end in
  match digits radix None s3 with
  | Some n => Some (sign * n)
  | None => None
  end.

(** [s.trim()] *)
Fixpoint trimEnd (s : string) : string :=
  match s with
  | String c r =>
      match trimEnd r with
      | EmptyString => if isSpace c then EmptyString else String c EmptyString
      | r' => String c r'
      end
  | EmptyString => EmptyString
  end.

Definition trim (s : string) : string := trimEnd (trimStart s).

(** [s.split(' ')] *)
Fixpoint splitSpace (cur : string) (s : string) : list string :=
  match s with
  | String c r =>
      if Ascii.eqb c " "%char
      then cur :: splitSpace EmptyString r
      else splitSpace (cur ++ String c EmptyString)%string r
  | EmptyString => [cur]
  end.

Definition split (s : string) : list string := splitSpace EmptyString s.

(** [l.slice(0, n)] *)
Definition slice0 {A} (n : nat) (l : list A) : list A := firstn n l.

(** [l.join(sep)] *)
Definition join (sep : string) (l : list string) : string := String.concat sep l.

End JS.

(* ------------------------------------------------------------------ *)
(** * Exceptions *)
(* ------------------------------------------------------------------ *)

Record Error := mkError { message : string }.

Inductive Result (A : Type) : Type :=
| Ok (a : A)
| Err (e : Error).
Arguments Ok {A} a.
Arguments Err {A} e.

Definition bind {A B} (r : Result A) (k : A -> Result B) : Result B :=
  match r with
  | Ok a => k a
  | Err e => Err e
  end.

Notation "x <- r ;; k" := (bind r (fun x => k))
  (at level 61, r at next level, right associativity).

(* ------------------------------------------------------------------ *)
(** * The part of pdf-lib the composer uses *)
(* ------------------------------------------------------------------ *)

Module Pdf.

Inductive Font := Helvetica | HelveticaBold.

(** [rgb(r, g, b)], components in tenths. *)
Definition Color : Type := (Z * Z * Z)%type.

(** One [page.drawText(text, {x, y, size, font, color})] call;
    [x] and [y] in hundredths of a point, [size] in points. *)
Record DrawOp := mkDraw {
  d_text : string;
  d_x : Z;
  d_y : Z;
  d_size : Z;
  d_font : Font;
  d_color : Color
}.

(** A page: the rendered content it was copied with (opaque, absent
    for a page made by [addPage]) and the text drawn on it since. *)
Record Page := mkPage {
  rendered : option N;
  drawn : list DrawOp
}.

Definition blankPage : Page := mkPage None [].

Record Metadata := mkMeta {
  m_title : option string;
  m_author : option string;
  m_subject : option string;
  m_keywords : option (list string);
  m_creationDate : option Z;
  m_modificationDate : option Z
}.

Definition noMeta : Metadata := mkMeta None None None None None None.

Record Document := mkDoc {
  pages : list Page;
  meta : Metadata
}.

(** A byte buffer either is the serialisation of a document or is
    not a PDF at all. *)
Inductive Buffer :=
| Serialized (d : Document)
| Malformed (raw : list N).

(** [PDFDocument.load(buffer)] *)
Definition load (b : Buffer) : Result Document :=
  match b with
  | Serialized d => Ok d
  | Malformed _ => Err (mkError "Failed to parse PDF document")
  end.

(** [PDFDocument.create()] *)
Definition create : Document := mkDoc [] noMeta.

(** [doc.save()] *)
Definition save (d : Document) : Buffer := Serialized d.

(** [doc.getPageCount()] *)
Definition getPageCount (d : Document) : Z := Z.of_nat (List.length (pages d)).

(** [doc.addPage()]: the document with one more blank page, and the
    reference (position) of the new page. *)
Definition addPage (ps : list Page) : list Page * nat :=
  (ps ++ [blankPage], List.length ps).

(** [doc.addPage(page)] for a page copied from another document. *)
Definition addCopied (ps : list Page) (p : Page) : list Page := ps ++ [p].

Fixpoint updateNth {A} (n : nat) (f : A -> A) (l : list A) : list A :=
  match l, n with
  | [], _ => []
  | x :: r, O => f x :: r
  | x :: r, S n' => x :: updateNth n' f r
  end.

(** [page.drawText(...)] on the page object referred to by [ref]:
    the page is shared with the document, so the document changes. *)
Definition drawText (ref : nat) (op : DrawOp) (ps : list Page) : list Page :=
  updateNth ref (fun p => mkPage (rendered p) (drawn p ++ [op])) ps.

(** Page size of [addPage()] without arguments, in hundredths of a
    point. *)
Record PageSize := mkSize { width : Z; height : Z }.

(** pdf-lib's default, [PageSizes.A4 = [595.28, 841.89]]. *)
Definition A4 : PageSize := mkSize 59528 84189.

End Pdf.

(* ------------------------------------------------------------------ *)
(** * TOC composer: [BlogArchiver.addTOC] *)
(* ------------------------------------------------------------------ *)

Module Toc.
Import Pdf.

(** A heading object as [extractHeadings] builds it
    ([{level, text, id, pageNumber: null}]; [pageNumber] is never
    read or written afterwards).  [objId] is the identity of the
    JavaScript object: [Array.prototype.indexOf] compares objects by
    identity, not by content. *)
Record Heading := mkHeading {
  objId : nat;
  level : Z;
  text : string;
  id : string
}.

(** The objects of an array built by pushing one fresh object literal
    per element are pairwise distinct. *)
Definition distinctObjects (headings : list Heading) : Prop :=
  NoDup (map objId headings).

Fixpoint indexOfFrom (k : Z) (h : Heading) (l : list Heading) : Z :=
  match l with
  | [] => -1
  | x :: r => if Nat.eqb (objId x) (objId h) then k else indexOfFrom (k + 1) h r
  end.

(** [headings.indexOf(heading)] *)
Definition indexOf (h : Heading) (l : list Heading) : Z := indexOfFrom 0 h l.

(** Whole points to hundredths of a point. *)
Definition pt (n : Z) : Z := n * 100.

Definition margin : Z := 50.

(** [s.substring(0, n) + (s.length > n ? '...' : '')] *)
Definition ellipsize (n : nat) (s : string) : string :=
  (JS.substring0 n s ++ (if JS.length s >? Z.of_nat n then "..." else ""))%string.

(** [let currentPage = 2; // Starting after TOC page] -- never
    assigned again. *)
Definition currentPage : Z := 2.

(** [Math.min(currentPage + Math.floor(headings.indexOf(heading) *
    pageEstimate / headings.length), currentPage + pageEstimate - 1)] *)
Definition estimatedPage (headings : list Heading) (heading : Heading)
           (pageEstimate : Z) : Z :=
  Z.min (currentPage
         + (indexOf heading headings * pageEstimate) / Z.of_nat (List.length headings))
        (currentPage + pageEstimate - 1).

(** The values of the loop's locals in one iteration, kept as a log
    next to the document (the source has no such record; it is the
    trace the properties below speak about). *)
Record Entry := mkEntry {
  e_heading : Heading;
  e_tocPages : nat;        (* pages of [pdfDoc] once the overflow check is done *)
  e_y : Z;                 (* [yPosition] at which the entry is drawn *)
  e_estimatedPage : Z;
  e_target : nat           (* the page object [drawText] is called on *)
}.

Record Loop := mkLoop {
  doc : list Page;
  yPosition : Z;
  log : list Entry
}.

Section Compose.

(** Size of the pages [addPage()] makes, the text of
    [new Date().toLocaleDateString('en-US', ...)] and the value of
    [new Date()]. *)
Variable size : PageSize.
Variable today : string.
Variable now : Z.

(** Body of [for (const heading of headings)]. *)
Definition layoutHeading (tocPage : nat) (headings : list Heading)
           (pageEstimate : Z) (st : Loop) (heading : Heading) : Loop :=
  let '(ps1, y1) :=
    if yPosition st <? pt (margin + 50)
    then
      (* const newTocPage = pdfDoc.addPage(); -- the reference is dropped *)
      let '(ps, newTocPage) := addPage (doc st) in
      (ps, height size - pt margin)
    else (doc st, yPosition st) in
  let indent := (level heading - 1) * 20 in
  let fontSize := if level heading =? 1 then 12 else 10 in
  let textFont := if level heading =? 1 then HelveticaBold else Helvetica in
  let estimated := estimatedPage headings heading pageEstimate in
  let ps2 :=
    drawText tocPage
      (mkDraw (ellipsize 60 (text heading))
              (pt (margin + indent)) y1 fontSize textFont (0, 0, 0)) ps1 in
  let ps3 :=
    drawText tocPage
      (mkDraw (JS.toString estimated)
              (width size - pt margin - pt 30) y1 fontSize Helvetica (5, 5, 5)) ps2 in
  mkLoop ps3 (y1 - pt (fontSize + 8))
         (log st ++ [mkEntry heading (List.length ps1) y1 estimated tocPage]).

(** [addTOC] from [pdfDoc.addPage()] to the end of the loop. *)
Definition layoutTOC (headings : list Heading) (pageEstimate : Z)
           (title url : string) : Loop :=
  let '(ps0, tocPage) := addPage (pages create) in
  let y0 := height size - pt margin in
  let ps1 :=
    drawText tocPage
      (mkDraw "Table of Contents" (pt margin) y0 24 HelveticaBold (0, 0, 0)) ps0 in
  let y1 := y0 - pt 40 in
  let ps2 :=
    drawText tocPage (mkDraw title (pt margin) y1 14 Helvetica (3, 3, 3)) ps1 in
  let y2 := y1 - pt 10 in
  let ps3 :=
    drawText tocPage
      (mkDraw (ellipsize 70 url) (pt margin) y2 10 Helvetica (4, 4, 7)) ps2 in
  let y3 := y2 - pt 10 in
  let ps4 :=
    drawText tocPage
      (mkDraw ("Archived: " ++ today)%string (pt margin) y3 10 Helvetica (5, 5, 5))
      ps3 in
  let y4 := y3 - pt 30 in
  fold_left (layoutHeading tocPage headings pageEstimate) headings
            (mkLoop ps4 y4 []).

Definition archiveMeta (title url : string) : Metadata :=
  mkMeta (Some (title ++ " - Offline Archive")%string)
         (Some "Blog Archiver")
         (Some ("Archived from: " ++ url)%string)
         (Some ["blog"; "archive"; "offline";
                JS.join ", " (JS.slice0 5 (JS.split title))])
         (Some now) (Some now).

(** [async addTOC(pdfBuffer, headings, title, url)].  The only
    exception the embedding decides is that of [PDFDocument.load];
    pdf-lib's [drawText] can throw as well, on a text the embedded
    font cannot encode, so [Ok] here means: the result, if [addTOC]
    returns.  What is stated about the result is stated under that
    condition. *)
Definition addTOC (pdfBuffer : Buffer) (headings : list Heading)
           (title url : string) : Result Buffer :=
  existingPdfDoc <- load pdfBuffer ;;
  let st := layoutTOC headings (getPageCount existingPdfDoc) title url in
  (* copyPages(existingPdfDoc, existingPdfDoc.getPageIndices()), then
     pages.forEach(page => pdfDoc.addPage(page)) *)
  let ps := fold_left addCopied (pages existingPdfDoc) (doc st) in
  Ok (save (mkDoc ps (archiveMeta title url))).

(** The bytes [generatePDFWithTOC] writes to the output path:
    [if (headings.length > 0) addTOC(...) else pdfBuffer]. *)
Definition composeOutput (pdfBuffer : Buffer) (headings : list Heading)
           (title url : string) : Result Buffer :=
  if Z.of_nat (List.length headings) >? 0
  then addTOC pdfBuffer headings title url
  else Ok pdfBuffer.

(** Number of pages [addTOC] has made itself when it starts
    copying the content pages. *)
Definition tocPageCount (headings : list Heading) (pageEstimate : Z)
           (title url : string) : nat :=
  List.length (doc (layoutTOC headings pageEstimate title url)).

End Compose.

(** [n] level-2 headings, one object each. *)
Definition sampleHeadings (n : nat) : list Heading :=
  map (fun k => mkHeading k 2 "Section" "") (seq 0 n).

End Toc.

(* ------------------------------------------------------------------ *)
(** * Viewport resolver: the probe of [detectOptimalViewport] *)
(* ------------------------------------------------------------------ *)

Module Viewport.

Local Open Scope Q_scope.

(** What the probe reads from one element matched by a selector:
    [getBoundingClientRect().width] and [parseFloat] of the computed
    left and right margins ([None] is [NaN], as for [auto]). *)
Record Box := mkBox {
  rectWidth : Q;
  marginLeft : option Q;
  marginRight : option Q
}.

(** What the probe reads from the document. *)
Record Geometry := mkGeometry {
  (* [document.querySelector(selector)] for the twelve selectors, in order *)
  containers : list (option Box);
  (* [document.body.getBoundingClientRect().width] *)
  bodyWidth : Q;
  (* [getBoundingClientRect().right] of every element, in document order *)
  rights : list Q;
  bodyScrollWidth : Z;
  htmlScrollWidth : Z
}.

Record Dimensions := mkDimensions {
  contentWidth : Z;
  documentWidth : Z;
  scrollWidth : Z;
  recommendedWidth : Z
}.

(** [a > b] on numbers. *)
Definition gtb (a b : Q) : bool := negb (Qle_bool a b).

(** [rect.width + parseFloat(marginLeft) + parseFloat(marginRight)] *)
Definition totalWidth (b : Box) : option Q :=
  match marginLeft b, marginRight b with
  | Some l, Some r => Some (rectWidth b + l + r)
  | _, _ => None
  end.

(** Body of [for (const selector of selectors)]; the state is
    [(contentElement != null, maxWidth)]. *)
Definition probeSelector (st : bool * Q) (found : option Box) : bool * Q :=
  match found with
  | Some b =>
      match totalWidth b with
      | Some w => if gtb w (snd st) then (true, w) else st
      | None => st                   (* [NaN > maxWidth] is false *)
      end
  | None => st
  end.

(** [maxWidth] once the selectors and the body fallback are done. *)
Definition maxWidth (g : Geometry) : Q :=
  let '(contentElement, w) := fold_left probeSelector (containers g) (false, 0) in
  if contentElement then w else bodyWidth g.

(** [allElements.forEach(el => { if (rect.right > documentWidth)
    documentWidth = rect.right; })] started from [maxWidth]. *)
Definition widest (start : Q) (rs : list Q) : Q :=
  fold_left (fun dw r => if gtb r dw then r else dw) rs start.

Definition rawDocumentWidth (g : Geometry) : Q := widest (maxWidth g) (rights g).

(** [Math.min(1400, Math.max(768, Math.ceil(documentWidth * 1.05)))] *)
Definition recommend (dw : Q) : Z :=
  Z.min 1400 (Z.max 768 (Qceiling (dw * (105 # 100)))).

(** The object the probe returns. *)
Definition measure (g : Geometry) : Dimensions :=
  mkDimensions (Qceiling (maxWidth g))
               (Qceiling (rawDocumentWidth g))
               (Z.max (bodyScrollWidth g) (htmlScrollWidth g))
               (recommend (rawDocumentWidth g)).

(** [clamp (x, lo, hi)] of the design document. *)
Definition clamp (x lo hi : Z) : Z :=
  if (x <? lo)%Z then lo else if (hi <? x)%Z then hi else x.

(** Largest of a non-empty family of widths. *)
Definition maxOf (first : Q) (others : list Q) : Q :=
  fold_left (fun a b => if Qle_bool a b then b else a) others first.

(** A page whose root element is limited to 800 pixels, measured in
    the 1920 pixels wide reference viewport. *)
Definition narrowRoot : Geometry :=
  mkGeometry [None; None; None; None; None; None; None; None; None; None; None; None]
             (800 # 1) [800 # 1; 800 # 1; 760 # 1] 800 1920.

(** A page that fills the reference viewport. *)
Definition wideRoot : Geometry :=
  mkGeometry [Some (mkBox (1600 # 1) (Some 0%Q) (Some 0%Q))]
             (1920 # 1) [1920 # 1; 1600 # 1] 1920 1920.

End Viewport.

(* ------------------------------------------------------------------ *)
(** * The archiver: constructor, [init], [generatePDFWithTOC], batch loop *)
(* ------------------------------------------------------------------ *)

Module Archiver.
Import Pdf Toc Viewport.

(** [this.viewportWidth]: the string ['auto'] or a number. *)
Inductive Width := Auto | Px (n : Z).

(** The options object given to the constructor; [None] is an
    absent [width]. *)
Record Options := mkOptions {
  o_width : option string;
  o_fullPage : bool
}.

(** Calls on the browser page and on the file system, in the order
    they are made. *)
Inductive Call :=
| SetViewport (w h : Z)
| Goto (url : string)
| MeasureGeometry                       (* the probe of [detectOptimalViewport] *)
| AutoScroll
| QueryHeadings                         (* the probe of [extractHeadings] *)
| AddStyleTag (corrective : bool)
| PrintPdf (viewport : Z) (fullPage : bool)
| WriteFile (path : string) (b : Buffer)
| Sleep (ms : Z).

(** The archiver object.  [page] is the width of the page's
    viewport, [None] while [this.page] is [null]. *)
Record BlogArchiver := mkArchiver {
  viewportWidth : Width;
  fullPage : bool;
  page : option Z;
  calls : list Call
}.

(** [constructor(options = {})]:
    [options.width === 'auto' ? 'auto' : (parseInt(options.width) || 'auto')];
    [NaN] and [0] are falsy. *)
Definition construct (options : Options) : BlogArchiver :=
  let w :=
    match o_width options with
    | Some s =>
        if String.eqb s "auto" then Auto
        else match JS.parseInt s with
             | Some n => if n =? 0 then Auto else Px n
             | None => Auto
             end
    | None => Auto
    end in
  mkArchiver w (o_fullPage options) None [].

(** A heading element of the rendered document: the digit of its
    tag name ([h1] .. [h6]), its text content and its [id]. *)
Record HeadingElement := mkElement {
  tagLevel : Z;
  textContent : string;
  elementId : string
}.

Fixpoint headingsFrom (index : nat) (els : list HeadingElement) : list Heading :=
  match els with
  | [] => []
  | el :: r =>
      mkHeading index (tagLevel el) (JS.trim (textContent el))
                (if JS.truthy (elementId el) then elementId el
                 else ("heading-" ++ JS.toString (Z.of_nat index))%string)
      :: headingsFrom (S index) r
  end.

(** What the site, the browser and the file system do during one
    job. *)
Record Site := mkSite {
  gotoDetect : option Error;            (* [page.goto] of [detectOptimalViewport] throws *)
  geometry : Geometry;
  gotoExtract : option Error;           (* [page.goto] of [extractHeadings] throws *)
  elements : Result (list HeadingElement);
  pageTitle : string;
  hasOverflow : bool;                   (* [checkForOverflow().hasOverflow] *)
  printed : Z -> bool -> Result Buffer; (* [page.pdf] at a viewport width *)
  written : option Error                (* [fs.writeFile] throws *)
}.

(** A method of the archiver: it changes the object and returns or
    throws; what it changed before throwing stays changed. *)
Definition Job (A : Type) : Type := BlogArchiver -> BlogArchiver * Result A.

Definition ret {A} (x : A) : Job A := fun a => (a, Ok x).

Definition bindJ {A B} (m : Job A) (k : A -> Job B) : Job B :=
  fun a =>
    match m a with
    | (a1, Ok x) => k x a1
    | (a1, Err e) => (a1, Err e)
    end.

Notation "x <~ m ;; k" := (bindJ m (fun x => k))
  (at level 61, m at next level, right associativity).
Notation "m ;;; k" := (bindJ m (fun _ => k))
  (at level 61, right associativity).

Definition lift {A} (r : Result A) : Job A := fun a => (a, r).

Definition throwIf (o : option Error) : Job unit :=
  fun a => match o with Some e => (a, Err e) | None => (a, Ok tt) end.

Definition call (c : Call) : Job unit :=
  fun a => (mkArchiver (viewportWidth a) (fullPage a) (page a) (calls a ++ [c]), Ok tt).

(** [this.page.setViewport({width, height, deviceScaleFactor: 1})];
    a [TypeError] while [this.page] is [null]. *)
Definition setViewport (w h : Z) : Job unit :=
  fun a =>
    match page a with
    | Some _ =>
        (mkArchiver (viewportWidth a) (fullPage a) (Some w)
                    (calls a ++ [SetViewport w h]), Ok tt)
    | None => (a, Err (mkError "Cannot read properties of null"))
    end.

Definition currentViewport : Job Z :=
  fun a =>
    match page a with
    | Some w => (a, Ok w)
    | None => (a, Err (mkError "Cannot read properties of null"))
    end.

Definition setViewportWidth (w : Width) : Job unit :=
  fun a => (mkArchiver w (fullPage a) (page a) (calls a), Ok tt).

(** [async init()]; [launch] is the outcome of [puppeteer.launch]. *)
Definition init (launch : option Error) : Job unit :=
  throwIf launch ;;;
  (fun a =>
     let initialWidth := match viewportWidth a with Auto => 1280 | Px n => n end in
     (mkArchiver (viewportWidth a) (fullPage a) (Some initialWidth)
                 (calls a ++ [SetViewport initialWidth 720]), Ok tt)).

(** [async detectOptimalViewport(url)] *)
Definition detectOptimalViewport (site : Site) (url : string) : Job Z :=
  setViewport 1920 1080 ;;;
  call (Goto url) ;;;
  throwIf (gotoDetect site) ;;;
  call MeasureGeometry ;;;
  ret (recommendedWidth (measure (geometry site))).

(** [async extractHeadings(url)] *)
Definition extractHeadings (site : Site) (url : string) : Job (list Heading) :=
  call (Goto url) ;;;
  throwIf (gotoExtract site) ;;;
  call AutoScroll ;;;
  call QueryHeadings ;;;
  els <~ lift (elements site) ;;
  ret (headingsFrom 0 els).

(** Whether [generatePDFWithTOC] measures:
    [this.viewportWidth === 1280 || this.viewportWidth === 'auto']. *)
Definition wantsDetection (w : Width) : bool :=
  match w with
  | Auto => true
  | Px n => n =? 1280
  end.

Section Jobs.

Variable size : PageSize.
Variable today : string.
Variable now : Z.

(** [if (this.viewportWidth === 1280 || this.viewportWidth === 'auto')
    { ... }] at the head of [generatePDFWithTOC]. *)
Definition resolveViewport (site : Site) (url : string) : Job unit :=
  fun a =>
    if wantsDetection (viewportWidth a)
    then (optimalWidth <~ detectOptimalViewport site url ;;
          setViewportWidth (Px optimalWidth) ;;;
          setViewport optimalWidth 720) a
    else (a, Ok tt).

(** [this.page.pdf(pdfOptions)]: the page is printed as the
    viewport stands. *)
Definition printPdf (site : Site) : Job Buffer :=
  fun a =>
    match page a with
    | Some w =>
        (call (PrintPdf w (fullPage a)) ;;; lift (printed site w (fullPage a))) a
    | None => (a, Err (mkError "Cannot read properties of null"))
    end.

(** [async generatePDFWithTOC(url, outputPath)]; its [catch] only
    logs the error and throws it again.  The awaits that neither
    change the archiver nor decide a branch (the page title apart:
    fonts, scrolling, settling delays, [fs.stat]) are not logged. *)
Definition generatePDFWithTOC (site : Site) (url outputPath : string) : Job string :=
  resolveViewport site url ;;;
  headings <~ extractHeadings site url ;;
  call (AddStyleTag false) ;;;
  (if hasOverflow site then call (AddStyleTag true) else ret tt) ;;;
  pdfBuffer <~ printPdf site ;;
  out <~ lift (composeOutput size today now pdfBuffer headings (pageTitle site) url) ;;
  call (WriteFile outputPath out) ;;;
  throwIf (written site) ;;;
  ret outputPath.

(** ** The batch loop of the command line tool *)

Inductive Status := success | failed.

(** [{url, status: 'success', path}] or
    [{url, status: 'failed', error}] *)
Record JobRecord := mkRecord {
  r_url : string;
  r_status : Status;
  r_path : option string;
  r_error : option string
}.

(** [new URL(url).hostname], [path.join], the time stamp of the
    [i]-th iteration and what the [i]-th job meets. *)
Variable hostname : string -> string.
Variable pathJoin : string -> string -> string.
Variable timestamp : nat -> string.
Variable siteAt : nat -> string -> Site.

(** [s.replace(/\./g, '_')] *)
Fixpoint replaceDots (s : string) : string :=
  match s with
  | String c r => String (if Ascii.eqb c "."%char then "_"%char else c) (replaceDots r)
  | EmptyString => EmptyString
  end.

Definition outputPathOf (outputDir : string) (i : nat) (url : string) : string :=
  pathJoin outputDir (replaceDots (hostname url) ++ "_" ++ timestamp i ++ ".pdf")%string.

(** What the [try]/[catch] of one iteration pushes on [results]. *)
Definition recordOf (url : string) (r : Result string) : JobRecord :=
  match r with
  | Ok outputPath => mkRecord url success (Some outputPath) None
  | Err e => mkRecord url failed None (Some (message e))
  end.

(** Body of [for (let i = 0; i < validUrls.length; i++)]: the
    archiver after the iteration and the record pushed on [results];
    [n] is [validUrls.length]. *)
Definition iteration (outputDir : string) (delay : Z) (n : nat) (i : nat)
           (url : string) (a : BlogArchiver) : BlogArchiver * JobRecord :=
  let outputPath := outputPathOf outputDir i url in
  match generatePDFWithTOC (siteAt i url) url outputPath a with
  | (a1, Ok p) =>
      (* results.push, then the delay between requests *)
      (if (Z.of_nat i <? Z.of_nat n - 1) && (Z.of_nat n >? 1)
       then fst (call (Sleep delay) a1)
       else a1,
       recordOf url (Ok p))
  | (a1, Err e) => (a1, recordOf url (Err e))
  end.

(** The loop from iteration [i] on; [rest] are the URLs not yet
    processed. *)
Fixpoint processUrls (outputDir : string) (delay : Z) (n : nat) (i : nat)
         (rest : list string) (a : BlogArchiver) (results : list JobRecord)
  : BlogArchiver * list JobRecord :=
  match rest with
  | [] => (a, results)
  | url :: rest' =>
      let '(a1, r) := iteration outputDir delay n i url a in
      processUrls outputDir delay n (S i) rest' a1 (results ++ [r])
  end.

Definition isFailed (r : JobRecord) : bool :=
  match r_status r with failed => true | success => false end.

Definition isSuccess (r : JobRecord) : bool :=
  match r_status r with success => true | failed => false end.

(** The summary: [results.filter(r => r.status === 'success')] and
    [results.filter(r => r.status === 'failed')]. *)
Definition successful (results : list JobRecord) : list JobRecord :=
  filter isSuccess results.

Definition failedJobs (results : list JobRecord) : list JobRecord :=
  filter isFailed results.

(** How the command ends. *)
Inductive Outcome :=
| Help                                  (* [program.help()] *)
| Exit (code : Z)
| Summary (ok bad : list JobRecord).

(** The command's options that the action reads. *)
Record CliOptions := mkCli {
  c_output : string;
  c_delay : string;
  c_width : string;
  c_fullPage : bool
}.

(** The action of the command once the URLs of the arguments and of
    the file are collected in [urlsToProcess].
    [validURL] tells whether [new URL(url)] accepts the string,
    [mkdir] and [launch] are the outcomes of [fs.mkdir] and
    [puppeteer.launch]. *)
Variable validURL : string -> bool.

Definition action (urlsToProcess : list string) (options : CliOptions)
           (mkdir launch : option Error) : BlogArchiver * Outcome :=
  let archiver := construct (mkOptions (Some (c_width options)) (c_fullPage options)) in
  let validUrls := filter validURL urlsToProcess in
  if (Z.of_nat (List.length urlsToProcess) =? 0) then (archiver, Help)
  else if (Z.of_nat (List.length validUrls) =? 0) then (archiver, Exit 1)
  else
    let outputDir :=
      if JS.truthy (c_output options) then c_output options else "./archive" in
    match mkdir with
    | Some _ => (archiver, Exit 1)
    | None =>
        match init launch archiver with
        | (a0, Err _) => (a0, Exit 1)
        | (a0, Ok _) =>
            let delay :=
              match JS.parseInt (c_delay options) with
              | Some d => if d =? 0 then 2000 else d
              | None => 2000
              end in
            let '(a1, results) :=
              processUrls outputDir delay (List.length validUrls) 0 validUrls a0 [] in
            (a1, Summary (successful results) (failedJobs results))
        end
    end.

End Jobs.

End Archiver.

(* ------------------------------------------------------------------ *)
(** * The popup of the browser extension *)
(* ------------------------------------------------------------------ *)

Module Popup.

(** A tab as [chrome.tabs.query] returns it; [url] and [title] are
    absent without the permission to read them. *)
Record Tab := mkTab {
  tabUrl : option string;
  tabTitle : option string
}.

(** The answer of the background script. *)
Record Response := mkResponse {
  succeeded : bool;
  errorText : option string
}.

(** What the click handler does to the popup and to the runtime. *)
Inductive Effect :=
| ShowStatus (text type : string)
| Generating (on : bool)      (* the [generating] class and [disabled] of the button *)
| SendMessage (action url : string) (title : option string)
| CloseLater (ms : Z).        (* [setTimeout(() => window.close(), ms)] *)

(** The callback given to [sendMessage]. *)
Definition onResponse (response : Response) : list Effect :=
  Generating false ::
  (if succeeded response
   then [ShowStatus "PDF generated successfully! Check your downloads." "success";
         CloseLater 2000]
   else [ShowStatus
           (match errorText response with
            | Some e => if JS.truthy e then e else "Failed to generate PDF"
            | None => "Failed to generate PDF"
            end) "error"]).

(** The click handler of [generate-btn].  [tabs] is the result of the
    query, [sendError] what [sendMessage] throws if it throws, and
    [response] the answer the callback receives. *)
Definition onGenerateClick (tabs : list Tab) (sendError : option Error)
           (response : Response) : list Effect :=
  match tabs with
  | [] => [ShowStatus "No active tab found" "error"]
  | tab :: _ =>
      match tabUrl tab with
      | Some u =>
          (* !tab.url || tab.url.startsWith('chrome://') || tab.url.startsWith('edge://') *)
          if negb (JS.truthy u) || JS.startsWith "chrome://" u || JS.startsWith "edge://" u
          then [ShowStatus "Cannot generate PDF for this page" "error"]
          else
            [Generating true; ShowStatus "Preparing PDF generation..." "info"]
            ++ match sendError with
               | None => SendMessage "generatePDF" u (tabTitle tab) :: onResponse response
               | Some e =>
                   [Generating false;
                    ShowStatus ("An error occurred: " ++ message e)%string "error"]
               end
      | None => [ShowStatus "Cannot generate PDF for this page" "error"]
      end
  end.

End Popup.

(* ------------------------------------------------------------------ *)
(** * Overflow probe: [BlogArchiver.checkForOverflow] *)
(* ------------------------------------------------------------------ *)

Module Overflow.

(** One element matched by
    [querySelectorAll('img, table, pre, .code-block, figure')]: its
    tag, its class and the left and right edge of its bounding box. *)
Record Watched := mkWatched {
  w_tag : string;
  w_class : string;
  w_left : Q;
  w_right : Q
}.

(** What the probe reads from the document. *)
Record Layout := mkLayout {
  bodyScroll : Z;                 (* [document.body.scrollWidth] *)
  bodyClient : Z;                 (* [document.body.clientWidth] *)
  htmlScroll : Z;                 (* [document.documentElement.scrollWidth] *)
  htmlClient : Z;                 (* [document.documentElement.clientWidth] *)
  innerWidth : Z;                 (* [window.innerWidth] *)
  watched : list Watched          (* in document order *)
}.

(** [{tag, class, overflow}] *)
Record Problem := mkProblem {
  p_tag : string;
  p_class : string;
  p_overflow : Q
}.

Record OverflowCheck := mkCheck {
  hasOverflow : bool;
  problematicElements : list Problem
}.

(** [rect.right > viewportWidth || rect.left < 0] *)
Definition sticksOut (viewportWidth : Z) (el : Watched) : bool :=
  Viewport.gtb (w_right el) (inject_Z viewportWidth) || Viewport.gtb 0 (w_left el).

(** Body of the [forEach]: [problematicElements.push(...)] when the
    element sticks out. *)
Definition inspect (viewportWidth : Z) (found : list Problem) (el : Watched)
  : list Problem :=
  if sticksOut viewportWidth el
  then found ++ [mkProblem (w_tag el) (w_class el)
                           (w_right el - inject_Z viewportWidth)%Q]
  else found.

(** [async checkForOverflow()] *)
Definition checkForOverflow (l : Layout) : OverflowCheck :=
  let hasHorizontalOverflow :=
    (bodyScroll l >? bodyClient l) || (htmlScroll l >? htmlClient l) in
  let viewportWidth := innerWidth l in
  let problematicElements := fold_left (inspect viewportWidth) (watched l) [] in
  mkCheck (hasHorizontalOverflow || (Z.of_nat (List.length problematicElements) >? 0))
          problematicElements.

End Overflow.

(* ------------------------------------------------------------------ *)
(** * Lazy-load scrolling: [BlogArchiver.autoScroll] *)
(* ------------------------------------------------------------------ *)

Module Scroll.

Inductive ScrollCall :=
| ScrollBy (dy : Z)               (* [window.scrollBy(0, dy)] *)
| ScrollTo (y : Z).               (* [window.scrollTo(0, y)] *)

Definition distance : Z := 100.

(** The interval timer from its [k]-th tick on.  [heightAt k] is
    [document.body.scrollHeight] as the [k]-th tick reads it (the page
    may grow while it is scrolled), [totalHeight] the local of that
    name, [done] the calls made so far.  The timer runs until the
    condition holds; [fuel] bounds the ticks looked at, and [None]
    says the promise is not resolved within them. *)
Fixpoint ticks (fuel : nat) (heightAt : nat -> Z) (k : nat) (totalHeight : Z)
         (done : list ScrollCall) : option (list ScrollCall) :=
  match fuel with
  | O => None
  | S fuel' =>
      let scrollHeight := heightAt k in
      let done1 := done ++ [ScrollBy distance] in
      let totalHeight1 := totalHeight + distance in
      if totalHeight1 >=? scrollHeight
      then Some (done1 ++ [ScrollTo 0])         (* clearInterval, back to top, resolve *)
      else ticks fuel' heightAt (S k) totalHeight1 done1
  end.

(** [async autoScroll()] *)
Definition autoScroll (fuel : nat) (heightAt : nat -> Z) : option (list ScrollCall) :=
  ticks fuel heightAt 0 0 [].

End Scroll.

(* ------------------------------------------------------------------ *)
(** * Command line: collecting the URLs and naming the output *)
(* ------------------------------------------------------------------ *)

Module Cli.

(** [s.split(sep)] for a separator of one character. *)
Fixpoint splitOn (sep : ascii) (cur : string) (s : string) : list string :=
  match s with
  | String c r =>
      if Ascii.eqb c sep
      then cur :: splitOn sep EmptyString r
      else splitOn sep (cur ++ String c EmptyString)%string r
  | EmptyString => [cur]
  end.

Definition newline : ascii := "010"%char.

(** [fileContent.split('\n').filter(line => line.trim())] *)
Definition fileUrls (fileContent : string) : list string :=
  filter (fun line => JS.truthy (JS.trim line)) (splitOn newline EmptyString fileContent).

(** [urlsToProcess]: the positional URLs followed by those of the
    file when [--file] is given; [file] is the outcome of
    [fs.readFile].  An unreadable file ends the process with code 1. *)
Definition urlsToProcess (urls : list string) (file : option (Result string))
  : option (list string) :=
  match file with
  | None => Some urls
  | Some (Ok fileContent) => Some (urls ++ fileUrls fileContent)
  | Some (Err _) => None
  end.

(** [s.replace(/[:.]/g, '-')] *)
Fixpoint dashes (s : string) : string :=
  match s with
  | String c r =>
      String (if Ascii.eqb c ":"%char || Ascii.eqb c "."%char then "-"%char else c)
             (dashes r)
  | EmptyString => EmptyString
  end.

(** [s.slice(0, -5)] *)
Definition dropLast5 (s : string) : string :=
  String.substring 0 (String.length s - 5) s.

(** [new Date().toISOString().replace(/[:.]/g, '-').slice(0, -5)]
    from the text of [toISOString()]. *)
Definition timestamp (iso : string) : string := dropLast5 (dashes iso).

(** [`${hostname}_${timestamp}.pdf`] with
    [hostname = new URL(url).hostname.replace(/\./g, '_')]. *)
Definition fileName (hostname iso : string) : string :=
  (Archiver.replaceDots hostname ++ "_" ++ timestamp iso ++ ".pdf")%string.

End Cli.

(* ------------------------------------------------------------------ *)
(** * The earlier archiver without width detection *)
(* ------------------------------------------------------------------ *)

Module ArchiverV0.
Import Pdf Toc Archiver.

(** [constructor(options = {})]:
    [this.viewportWidth = parseInt(options.width) || 1280]. *)
Definition construct (options : Options) : BlogArchiver :=
  let w :=
    match o_width options with
    | Some s =>
        match JS.parseInt s with
        | Some n => if n =? 0 then 1280 else n
        | None => 1280
        end
    | None => 1280
    end in
  mkArchiver (Px w) (o_fullPage options) None [].

(** [async init()]: the viewport is set to [this.viewportWidth]. *)
Definition init (launch : option Error) : Job unit :=
  throwIf launch ;;;
  (fun a =>
     match viewportWidth a with
     | Px w =>
         (mkArchiver (viewportWidth a) (fullPage a) (Some w)
                     (calls a ++ [SetViewport w 720]), Ok tt)
     | Auto => (a, Err (mkError "Invalid viewport width"))
     end).

Section Jobs.

Variable size : PageSize.
Variable today : string.
Variable now : Z.

(** [async generatePDFWithTOC(url, outputPath)]: headings, styles,
    print, compose, write; no measuring and no overflow check. *)
Definition generatePDFWithTOC (site : Site) (url outputPath : string) : Job string :=
  headings <~ extractHeadings site url ;;
  call (AddStyleTag false) ;;;
  pdfBuffer <~ printPdf site ;;
  out <~ lift (composeOutput size today now pdfBuffer headings (pageTitle site) url) ;;
  call (WriteFile outputPath out) ;;;
  throwIf (written site) ;;;
  ret outputPath.

End Jobs.

End ArchiverV0.

(* ------------------------------------------------------------------ *)
(** * The first generator: [PDFGenerator.addTOC] *)
(* ------------------------------------------------------------------ *)

Module Legacy.
Import Pdf Toc.

Section Compose.

Variable size : PageSize.
Variable now : Z.

(** [addTOC] from [pdfDoc.addPage()] to the end of the loop.  The
    header has no archive date and the URL is drawn as it is; the loop
    is the one of the archiver, statement by statement. *)
Definition layoutTOC (headings : list Heading) (pageEstimate : Z)
           (title url : string) : Loop :=
  let '(ps0, tocPage) := addPage (pages create) in
  let y0 := height size - pt margin in
  let ps1 :=
    drawText tocPage
      (mkDraw "Table of Contents" (pt margin) y0 24 HelveticaBold (0, 0, 0)) ps0 in
  let y1 := y0 - pt 40 in
  let ps2 :=
    drawText tocPage (mkDraw title (pt margin) y1 14 Helvetica (3, 3, 3)) ps1 in
  let y2 := y1 - pt 10 in
  let ps3 :=
    drawText tocPage (mkDraw url (pt margin) y2 10 Helvetica (4, 4, 7)) ps2 in
  let y3 := y2 - pt 30 in
  fold_left (layoutHeading size tocPage headings pageEstimate) headings
            (mkLoop ps3 y3 []).

Definition generatorMeta (title url : string) : Metadata :=
  mkMeta (Some title) (Some "PDF Generator") (Some ("Generated from: " ++ url)%string)
         None (Some now) (Some now).

(** [async addTOC(pdfBuffer, headings, title, url)] *)
Definition addTOC (pdfBuffer : Buffer) (headings : list Heading)
           (title url : string) : Result Buffer :=
  existingPdfDoc <- load pdfBuffer ;;
  let st := layoutTOC headings (getPageCount existingPdfDoc) title url in
  let ps := fold_left addCopied (pages existingPdfDoc) (doc st) in
  Ok (save (mkDoc ps (generatorMeta title url))).

End Compose.

End Legacy.

(* ------------------------------------------------------------------ *)
(** * The background script of the browser extension *)
(* ------------------------------------------------------------------ *)

Module Background.

(** [{success: true, filename}] or [{success: false, error}] *)
Record Reply := mkReply {
  success : bool;
  filename : option string;
  error : option string
}.

(** What the browser does for the script. *)
Record Browser := mkBrowser {
  activeTabs : list Z;                  (* ids, as [chrome.tabs.query] returns them *)
  insertCSS : option Error;             (* [chrome.scripting.insertCSS] throws *)
  executeScript : option Error;         (* [chrome.scripting.executeScript] throws *)
  hostnameOf : string -> Result string; (* [new URL(url).hostname] *)
  isoNow : string;                      (* [new Date().toISOString()] *)
  printing : bool;                      (* [chrome.printing] is there *)
  submitJob : option Error;             (* [chrome.printing.submitJob] throws *)
  printToPDF : option Error             (* [chrome.tabs.printToPDF] throws *)
}.

Definition attempt (o : option Error) : Result unit :=
  match o with
  | Some e => Err e
  | None => Ok tt
  end.

(** [async generateWithPrintingAPI(tabId, filename)]; its [catch]
    logs and throws again. *)
Definition generateWithPrintingAPI (b : Browser) : Result unit :=
  if negb (printing b)
  then Err (mkError "Chrome Printing API not available")
  else attempt (submitJob b).

(** The [try] block of [handlePDFGeneration], up to its [return]:
    the file name it returns, or what it throws.  The callback given
    to [printToPDF] (the download) runs after the reply and is not
    part of it. *)
Definition generate (b : Browser) (url : string) : Result string :=
  tab <- match activeTabs b with
         | [] => Err (mkError "No active tab found")
         | t :: _ => Ok t
         end ;;
  _ <- attempt (insertCSS b) ;;
  _ <- attempt (executeScript b) ;;
  hostname <- hostnameOf b url ;;
  let filename := Cli.fileName hostname (isoNow b) in
  _ <- (if printing b then generateWithPrintingAPI b else attempt (printToPDF b)) ;;
  Ok filename.

(** [async handlePDFGeneration(url, title)] *)
Definition handlePDFGeneration (b : Browser) (url title : string) : Reply :=
  match generate b url with
  | Ok filename => mkReply true (Some filename) None
  | Err e => mkReply false None (Some (message e))
  end.

(** A message as the listener receives it. *)
Record Request := mkRequest {
  action : string;
  reqUrl : string;
  reqTitle : string
}.

(** The [onMessage] listener: the reply given to [sendResponse], or
    [None] when the listener does not answer. *)
Definition onMessage (b : Browser) (request : Request) : option Reply :=
  if String.eqb (action request) "generatePDF"
  then Some (handlePDFGeneration b (reqUrl request) (reqTitle request))
  else None.

(** [chrome.notifications.create({title, message})] *)
Record Notification := mkNotification {
  n_title : string;
  n_message : string
}.

(** The [contextMenus.onClicked] listener: the notifications it
    creates.  [notifyError] is what [notifications.create] throws in
    the [try] block if it throws. *)
Definition onClicked (b : Browser) (menuItemId url title : string)
           (notifyError : option Error) : list Notification :=
  if String.eqb menuItemId "generate-pdf"
  then
    let result := handlePDFGeneration b url title in
    if success result
    then
      match notifyError with
      | None =>
          [mkNotification "PDF Generated"
             ("PDF saved as " ++ match filename result with Some f => f | None => "" end)%string]
      | Some e => [mkNotification "PDF Generation Failed" (message e)]
      end
    else []
  else [].

(** The popup's click followed by the background's answer: the
    message the popup sends goes through the listener and the reply
    comes back to the popup's callback. *)
Definition clickThrough (b : Browser) (tabs : list Popup.Tab) : list Popup.Effect :=
  match tabs with
  | tab :: _ =>
      match Popup.tabUrl tab with
      | Some u =>
          let title := match Popup.tabTitle tab with Some t => t | None => "" end in
          match onMessage b (mkRequest "generatePDF" u title) with
          | Some r =>
              Popup.onGenerateClick tabs None (Popup.mkResponse (success r) (error r))
          | None => Popup.onGenerateClick tabs None (Popup.mkResponse false None)
          end
      | None => Popup.onGenerateClick tabs None (Popup.mkResponse false None)
      end
  | [] => Popup.onGenerateClick tabs None (Popup.mkResponse false None)
  end.

End Background.

(* ------------------------------------------------------------------ *)
(** * Properties of the TOC composer *)
(* ------------------------------------------------------------------ *)

Module TocFacts.
Import Pdf Toc.

(** The two [drawText] calls of one loop iteration. *)
Definition entryOps (size : PageSize) (e : Entry) : list DrawOp :=
  let h := e_heading e in
  let fontSize := if level h =? 1 then 12 else 10 in
  [ mkDraw (ellipsize 60 (text h)) (pt (margin + (level h - 1) * 20)) (e_y e)
           fontSize (if level h =? 1 then HelveticaBold else Helvetica) (0, 0, 0);
    mkDraw (JS.toString (e_estimatedPage e)) (width size - pt margin - pt 30) (e_y e)
           fontSize Helvetica (5, 5, 5) ].

(** What the loop keeps true: the first page collects every entry,
    the pages behind it are the blank overflow pages. *)
Inductive Grown (size : PageSize) (headings : list Heading) (P : Z)
          (hs : list Heading) (st st' : Loop) : Prop :=
| mkGrown (new : list Entry) (blanks : nat) (first : Page) (rest : list Page)
    (g_doc : doc st = first :: rest)
    (g_doc' : doc st' =
              mkPage (rendered first) (drawn first ++ flat_map (entryOps size) new)
              :: rest ++ repeat blankPage blanks)
    (g_log : log st' = log st ++ new)
    (g_headings : map e_heading new = hs)
    (g_entries : Forall (fun e =>
                  e_estimatedPage e = estimatedPage headings (e_heading e) P
                  /\ e_target e = 0%nat
                  /\ (List.length (doc st) <= e_tocPages e <= List.length (doc st'))%nat)
                  new).

Lemma layoutHeading_first size headings P st h p0 rest :
  doc st = p0 :: rest ->
  exists k y,
    layoutHeading size 0 headings P st h =
    mkLoop (mkPage (rendered p0)
              (drawn p0 ++ entryOps size
                 (mkEntry h (List.length (rest ++ repeat blankPage k) + 1) y
                          (estimatedPage headings h P) 0))
            :: rest ++ repeat blankPage k)
           (y - pt ((if level h =? 1 then 12 else 10) + 8))
           (log st ++ [mkEntry h (List.length (rest ++ repeat blankPage k) + 1) y
                               (estimatedPage headings h P) 0])
    /\ (k <= 1)%nat.
Proof.
  intros Hdoc. unfold layoutHeading, addPage, entryOps, drawText.
  destruct (yPosition st <? pt (margin + 50)).
  - exists 1%nat, (height size - pt margin). rewrite Hdoc.
    cbn [app updateNth rendered drawn e_heading e_y e_estimatedPage List.length].
    rewrite <- app_assoc. cbn [app].
    replace (S (List.length (rest ++ [blankPage])))
      with (List.length (rest ++ [blankPage]) + 1)%nat by lia.
    split; [reflexivity | lia].
  - exists 0%nat, (yPosition st). rewrite Hdoc.
    cbn [app updateNth rendered drawn e_heading e_y e_estimatedPage List.length repeat].
    rewrite <- app_assoc, app_nil_r. cbn [app].
    replace (S (List.length rest)) with (List.length rest + 1)%nat by lia.
    split; [reflexivity | lia].
Qed.

Lemma fold_layout size headings P hs :
  forall st p0 rest,
    doc st = p0 :: rest ->
    Grown size headings P hs st
          (fold_left (layoutHeading size 0 headings P) hs st).
Proof.
  induction hs as [|h hs IH]; intros st p0 rest Hdoc.
  - simpl. apply (mkGrown size headings P [] st st [] 0 p0 rest); simpl; auto.
    + rewrite Hdoc, !app_nil_r. destruct p0; reflexivity.
    + now rewrite app_nil_r.
  - simpl.
    destruct (layoutHeading_first size headings P st h p0 rest Hdoc)
      as (k & y & Hstep & Hk).
    set (e := mkEntry h (List.length (rest ++ repeat blankPage k) + 1) y
                      (estimatedPage headings h P) 0) in *.
    set (st1 := layoutHeading size 0 headings P st h) in *.
    assert (Hdoc1 : doc st1 =
                    mkPage (rendered p0) (drawn p0 ++ entryOps size e)
                    :: rest ++ repeat blankPage k) by now rewrite Hstep.
    destruct (IH st1 _ _ Hdoc1) as [new b f r Hd Hd' Hl Hh He].
    rewrite Hdoc1 in Hd. injection Hd as <- <-.
    apply (mkGrown size headings P (h :: hs) st _ (e :: new) (k + b) p0 rest); auto.
    + rewrite Hd'. simpl. rewrite <- !app_assoc, repeat_app. reflexivity.
    + rewrite Hl, Hstep. simpl. now rewrite <- app_assoc.
    + simpl. now rewrite Hh.
    + constructor.
      * subst e. cbn [e_estimatedPage e_heading e_target e_tocPages].
        rewrite Hdoc, Hd'. cbn [List.length].
        rewrite !length_app, !repeat_length. repeat split; auto; lia.
      * eapply Forall_impl; [|exact He]. intros a (A1 & A2 & A3 & A4).
        repeat split; auto.
        rewrite Hdoc. rewrite Hdoc1 in A3. cbn [List.length] in *.
        rewrite length_app in A3. lia.
Qed.

(** The header block, as it stands on the first page before the
    loop starts. *)
Definition headerOps (size : PageSize) (today title url : string) : list DrawOp :=
  let y0 := height size - pt margin in
  [ mkDraw "Table of Contents" (pt margin) y0 24 HelveticaBold (0, 0, 0);
    mkDraw title (pt margin) (y0 - pt 40) 14 Helvetica (3, 3, 3);
    mkDraw (ellipsize 70 url) (pt margin) (y0 - pt 40 - pt 10) 10 Helvetica (4, 4, 7);
    mkDraw ("Archived: " ++ today)%string (pt margin) (y0 - pt 40 - pt 10 - pt 10)
           10 Helvetica (5, 5, 5) ].

(** Shape of the document when the loop is over. *)
Lemma layoutTOC_shape size today headings P title url :
  exists blanks,
    doc (layoutTOC size today headings P title url) =
    mkPage None (headerOps size today title url
                 ++ flat_map (entryOps size)
                      (log (layoutTOC size today headings P title url)))
    :: repeat blankPage blanks
    /\ map e_heading (log (layoutTOC size today headings P title url)) = headings
    /\ Forall (fun e =>
          e_estimatedPage e = estimatedPage headings (e_heading e) P
          /\ e_target e = 0%nat
          /\ (1 <= e_tocPages e <= 1 + blanks)%nat)
         (log (layoutTOC size today headings P title url)).
Proof.
  unfold layoutTOC. simpl.
  match goal with
  | |- context [fold_left _ _ ?s] =>
      destruct (fold_layout size headings P headings s _ _ eq_refl)
        as [new b f r Hd Hd' Hl Hh He]
  end.
  simpl in Hd. injection Hd as <- <-.
  simpl in Hl. exists b. rewrite Hd', Hl. simpl. repeat split; auto.
  eapply Forall_impl; [|exact He]. intros a (A1 & A2 & A3 & A4).
  repeat split; auto. rewrite Hd' in A4. simpl in A4. rewrite repeat_length in A4. lia.
Qed.

Lemma layoutTOC_log_length size today headings P title url :
  List.length (log (layoutTOC size today headings P title url)) = List.length headings.
Proof.
  destruct (layoutTOC_shape size today headings P title url) as (b & _ & Hh & _).
  rewrite <- Hh at 2. now rewrite length_map.
Qed.

Lemma indexOfFrom_nth (l : list Heading) :
  forall k i h,
    distinctObjects l -> nth_error l i = Some h ->
    indexOfFrom k h l = k + Z.of_nat i.
Proof.
  unfold distinctObjects.
  induction l as [|x r IH]; intros k i h Hnd Hn.
  - destruct i; discriminate.
  - simpl in Hnd. inversion Hnd as [|? ? Hnotin Hnd']; subst.
    destruct i as [|i]; simpl in Hn |- *.
    + injection Hn as ->. rewrite Nat.eqb_refl. lia.
    + destruct (Nat.eqb_spec (objId x) (objId h)) as [E|E].
      * exfalso. apply Hnotin. rewrite E.
        apply in_map. eapply nth_error_In; eauto.
      * rewrite (IH (k + 1) i h Hnd' Hn). lia.
Qed.

Lemma indexOf_nth l i h :
  distinctObjects l -> nth_error l i = Some h -> indexOf h l = Z.of_nat i.
Proof.
  intros. unfold indexOf. now rewrite (indexOfFrom_nth l 0 i h).
Qed.

Lemma sampleHeadings_distinct n : distinctObjects (sampleHeadings n).
Proof.
  unfold distinctObjects, sampleHeadings. rewrite map_map. simpl.
  rewrite map_id. apply seq_NoDup.
Qed.

(** The [i]-th iteration works on the [i]-th heading and prints the
    estimate computed from the fixed offset [currentPage]. *)
Lemma entry_at size today headings P title url i e :
  distinctObjects headings ->
  nth_error (log (layoutTOC size today headings P title url)) i = Some e ->
  nth_error headings i = Some (e_heading e)
  /\ e_estimatedPage e =
     Z.min (currentPage + (Z.of_nat i * P) / Z.of_nat (List.length headings))
           (currentPage + P - 1)
  /\ e_target e = 0%nat.
Proof.
  intros Hd Hn.
  destruct (layoutTOC_shape size today headings P title url) as (b & _ & Hh & Hall).
  assert (Hi : nth_error headings i = Some (e_heading e)).
  { rewrite <- Hh. now apply map_nth_error. }
  rewrite Forall_forall in Hall.
  destruct (Hall e (nth_error_In _ _ Hn)) as (He & Ht & _).
  repeat split; auto.
  rewrite He. unfold estimatedPage. now rewrite (indexOf_nth headings i (e_heading e)).
Qed.






(** C9. The page numbers printed in the TOC never decrease from one
    heading to a later one. *)
Theorem estimates_monotone size today headings P title url i j ei ej :
  distinctObjects headings ->
  (1 <= List.length headings)%nat ->
  1 <= P ->
  (i <= j)%nat ->
  nth_error (log (layoutTOC size today headings P title url)) i = Some ei ->
  nth_error (log (layoutTOC size today headings P title url)) j = Some ej ->
  e_estimatedPage ei <= e_estimatedPage ej.
Proof.
  intros Hd HH HP Hij Hi Hj.
  destruct (entry_at size today headings P title url i ei Hd Hi) as (_ & -> & _).
  destruct (entry_at size today headings P title url j ej Hd Hj) as (_ & -> & _).
  apply Z.min_le_compat_r, Z.add_le_mono_l.
  apply Z.div_le_mono; [lia | nia].
Qed.

Lemma estimates_monotone_witness :
  let hs := sampleHeadings 5 in
  let l := log (layoutTOC A4 "September 25, 2024" hs 3 "Post" "https://a.io/p") in
  exists ei ej,
    nth_error l 1 = Some ei /\ nth_error l 4 = Some ej
    /\ e_estimatedPage ei = 2 /\ e_estimatedPage ej = 4
    /\ e_estimatedPage ei <= e_estimatedPage ej.
Proof.
  intros hs l.
  exists (mkEntry (mkHeading 1 2 "Section" "") 1 68389 2 0),
         (mkEntry (mkHeading 4 2 "Section" "") 1 62989 4 0).
  assert (H1 : nth_error l 1 = Some (mkEntry (mkHeading 1 2 "Section" "") 1 68389 2 0))
    by reflexivity.
  assert (H4 : nth_error l 4 = Some (mkEntry (mkHeading 4 2 "Section" "") 1 62989 4 0))
    by reflexivity.
  repeat split; auto.
  apply (estimates_monotone A4 "September 25, 2024" hs 3 "Post" "https://a.io/p"
           1 4 _ _ (sampleHeadings_distinct 5)); auto; simpl; lia.
Defined.

(** ** Page count of the output *)

Lemma fold_addCopied (l ps : list Page) : fold_left addCopied l ps = ps ++ l.
Proof.
  revert ps. induction l as [|p l IH]; intros ps; simpl.
  - now rewrite app_nil_r.
  - rewrite IH. unfold addCopied. now rewrite <- app_assoc.
Qed.

(** TOC pages of the file that is written: none when there is no
    heading (the composer is not called), otherwise the pages
    [addTOC] makes before it copies the content. *)
Definition writtenTocPages (size : PageSize) (today : string)
           (headings : list Heading) (pageEstimate : Z) (title url : string) : nat :=
  match headings with
  | [] => 0%nat
  | _ => tocPageCount size today headings pageEstimate title url
  end.

(** C2. Whenever the composition step returns for a parseable content
    PDF, the written document consists of the TOC pages followed by
    the pages of the content PDF in their order, so its page count is
    the number of TOC pages plus [P]; without headings the step
    always returns, the content bytes are written as they are and no
    TOC page exists. *)
Theorem output_page_count size today now buffer content headings title url :
  load buffer = Ok content ->
  (headings = [] ->
   composeOutput size today now buffer headings title url = Ok buffer)
  /\ (forall out,
        composeOutput size today now buffer headings title url = Ok out ->
        exists outDoc tocs,
          load out = Ok outDoc
          /\ pages outDoc = tocs ++ pages content
          /\ List.length tocs =
             writtenTocPages size today headings (getPageCount content) title url
          /\ Forall (fun p => rendered p = None) tocs
          /\ getPageCount outDoc =
             Z.of_nat (writtenTocPages size today headings (getPageCount content)
                                       title url)
             + getPageCount content
          /\ (headings = [] -> tocs = [] /\ out = buffer)
          /\ (headings <> [] -> (1 <= List.length tocs)%nat)).
Proof.
  intros Hload. unfold composeOutput.
  destruct headings as [|h hs].
  - split; [reflexivity|]. intros out Hout. cbn in Hout. injection Hout as <-.
    exists content, []. cbn [app List.length writtenTocPages].
    repeat split; auto; try lia. congruence.
  - split; [discriminate|]. intros out.
    replace (Z.of_nat (List.length (h :: hs)) >? 0) with true
      by (symmetry; apply Z.gtb_lt; simpl List.length; lia).
    unfold addTOC. rewrite Hload. cbn [bind].
    destruct (layoutTOC_shape size today (h :: hs) (getPageCount content) title url)
      as (b & Hdoc & _ & _).
    set (st := layoutTOC size today (h :: hs) (getPageCount content) title url) in *.
    intros Hout. injection Hout as <-.
    exists (mkDoc (fold_left addCopied (pages content) (doc st))
                  (archiveMeta now title url)),
           (doc st).
    assert (Hlen : List.length (doc st) =
                   writtenTocPages size today (h :: hs) (getPageCount content) title url)
      by reflexivity.
    split; [reflexivity|].
    split; [|split; [|split; [|split; [|split]]]].
    + cbn [pages]. apply fold_addCopied.
    + exact Hlen.
    + rewrite Hdoc. constructor; [reflexivity|].
      apply Forall_forall. intros p Hp. apply repeat_spec in Hp. now subst p.
    + rewrite <- Hlen. clear Hlen Hdoc. clearbody st.
      unfold getPageCount. cbn [pages].
      rewrite fold_addCopied, length_app. lia.
    + discriminate.
    + intros _. rewrite Hdoc. cbn [List.length]. lia.
Qed.

Lemma output_page_count_witness :
  let content := mkDoc [mkPage (Some 1%N) []; mkPage (Some 2%N) []; mkPage (Some 3%N) []]
                       noMeta in
  let hs := [mkHeading 0 1 "Intro" "intro"; mkHeading 1 2 "Details" "heading-1"] in
  load (Serialized content) = Ok content
  /\ exists out outDoc tocs,
       composeOutput A4 "September 25, 2024" 0 (Serialized content) hs
                     "Post" "https://a.io/p" = Ok out
       /\ load out = Ok outDoc
       /\ pages outDoc = tocs ++ pages content
       /\ List.length tocs = 1%nat
       /\ getPageCount outDoc = 1 + 3.
Proof.
  intros content hs. split; [reflexivity|].
  destruct (proj2 (output_page_count A4 "September 25, 2024" 0 (Serialized content)
                     content hs "Post" "https://a.io/p" eq_refl)
                  _ eq_refl)
    as (outDoc & tocs & Hl & Hp & Hn & _ & Hc & _).
  eexists _, outDoc, tocs. split; [reflexivity|]. repeat split; assumption.
Defined.

(** [addTOC] called with no heading still makes its first page. *)
Lemma addTOC_empty_adds_page size today now content title url :
  exists outDoc,
    addTOC size today now (Serialized content) [] title url = Ok (Serialized outDoc)
    /\ getPageCount outDoc = 1 + getPageCount content.
Proof.
  eexists. split; [reflexivity|].
  unfold getPageCount at 1. cbn [pages]. rewrite fold_addCopied, length_app.
  unfold layoutTOC, addPage, drawText, create.
  cbn [pages app updateNth List.length fold_left doc]. unfold getPageCount. lia.
Qed.

(** ** Overflow pages *)

(** Every page after the first TOC page is left blank, and every
    entry is drawn on the first page, however many overflow pages
    the loop allocates. *)
Lemma overflow_pages_blank size today headings P title url :
  exists first blanks,
    doc (layoutTOC size today headings P title url) = first :: repeat blankPage blanks
    /\ Forall (fun e => e_target e = 0%nat)
              (log (layoutTOC size today headings P title url)).
Proof.
  destruct (layoutTOC_shape size today headings P title url) as (b & Hdoc & _ & Hall).
  eexists _, b. split; [exact Hdoc|].
  eapply Forall_impl; [|exact Hall]. now intros a (_ & Ht & _).
Qed.

(** C3 at 36 second-level headings on A4 pages.  The 35th heading
    finds the cursor (107.89) under the threshold (100): a second
    TOC page is allocated and the cursor returns to the top margin
    (791.89).  The 35th and 36th entries are nevertheless drawn on
    the first page, which ends up with all 4 + 72 texts, and the
    second page stays blank. *)
Theorem overflow_entries_on_first_page :
  let st := layoutTOC A4 "September 25, 2024" (sampleHeadings 36) 1
                      "Post" "https://a.io/p" in
  map e_y (skipn 33 (log st)) = [10789; 79189; 77389]
  /\ map e_tocPages (skipn 33 (log st)) = [1; 2; 2]%nat
  /\ map e_target (skipn 33 (log st)) = [0; 0; 0]%nat
  /\ map (fun p => List.length (drawn p)) (doc st) = [76; 0]%nat
  /\ nth_error (doc st) 1 = Some blankPage.
Proof.
  vm_compute. repeat split; reflexivity.
Qed.

(** ** Truncation of the texts *)

(** Truncation as the design document words it: a text longer than
    [n] characters becomes its first [n] characters followed by an
    ellipsis, any other text is left as it is. *)
Definition truncated (n : nat) (s : string) : string :=
  if (n <? String.length s)%nat
  then (String.substring 0 n s ++ "...")%string
  else s.

Lemma substring_all (s : string) :
  forall n, (String.length s <= n)%nat -> String.substring 0 n s = s.
Proof.
  induction s as [|c s IH]; intros n Hn.
  - destruct n; reflexivity.
  - destruct n; simpl in *; [lia|]. rewrite IH; [reflexivity | lia].
Qed.

Lemma string_app_empty (s : string) : (s ++ "")%string = s.
Proof. induction s; simpl; congruence. Qed.

Lemma ellipsize_truncated n s : ellipsize n s = truncated n s.
Proof.
  unfold ellipsize, truncated, JS.length, JS.substring0.
  destruct (Nat.ltb_spec n (String.length s)) as [Hlt|Hge].
  - replace (Z.of_nat (String.length s) >? Z.of_nat n) with true
      by (symmetry; apply Z.gtb_lt; lia).
    reflexivity.
  - replace (Z.of_nat (String.length s) >? Z.of_nat n) with false
      by (symmetry; rewrite Z.gtb_ltb; apply Z.ltb_ge; lia).
    rewrite string_app_empty. now apply substring_all.
Qed.

Lemma entry_texts size headings P (l : list Entry) :
  Forall (fun e => e_estimatedPage e = estimatedPage headings (e_heading e) P) l ->
  map d_text (flat_map (entryOps size) l) =
  flat_map (fun h => [truncated 60 (text h); JS.toString (estimatedPage headings h P)])
           (map e_heading l).
Proof.
  induction 1 as [|e l He _ IH]; [reflexivity|].
  cbn [flat_map map entryOps app d_text]. rewrite IH, He, ellipsize_truncated.
  reflexivity.
Qed.

(** C4 (as amended). Everything the composer writes is on the first
    TOC page: the heading of the page, the document title as it is
    (whatever its length), the URL cut to 70 characters with an
    ellipsis when longer, the archive date, and for each heading its
    text cut to 60 characters with an ellipsis when longer, followed
    by its page number; texts at or under their threshold are drawn
    unmodified. *)
Theorem toc_texts size today headings P title url :
  exists first blanks,
    doc (layoutTOC size today headings P title url) = first :: repeat blankPage blanks
    /\ map d_text (drawn first) =
       ["Table of Contents"; title; truncated 70 url; ("Archived: " ++ today)%string]
       ++ flat_map (fun h => [truncated 60 (text h);
                              JS.toString (estimatedPage headings h P)]) headings.
Proof.
  destruct (layoutTOC_shape size today headings P title url) as (b & Hdoc & Hh & Hall).
  eexists _, b. split; [exact Hdoc|].
  cbn [drawn]. rewrite map_app, (entry_texts size headings P), Hh.
  - unfold headerOps. cbn [map d_text]. now rewrite ellipsize_truncated.
  - eapply Forall_impl; [|exact Hall]. now intros a (He & _).
Qed.

(** C4 (as stated) fails for the document title: a title of 71
    characters is drawn in full. *)
Lemma title_truncation_counterexample :
  ~ (forall headings P title url,
        exists first rest,
          doc (layoutTOC A4 "September 25, 2024" headings P title url) = first :: rest
          /\ map d_text (drawn first) =
             ["Table of Contents"; truncated 70 title; truncated 70 url;
              "Archived: September 25, 2024"]
             ++ flat_map (fun h => [truncated 60 (text h);
                                    JS.toString (estimatedPage headings h P)]) headings).
Proof.
  intros H.
  destruct (H [] 1
              "An unusually long article title that runs past seventy characters, yes!"
              "https://a.io/p") as (first & rest & Hdoc & Htexts).
  vm_compute in Hdoc. injection Hdoc as <- <-.
  vm_compute in Htexts. discriminate Htexts.
Qed.

End TocFacts.

(* ------------------------------------------------------------------ *)
(** * Properties of the viewport resolver *)
(* ------------------------------------------------------------------ *)

Module ViewportFacts.
Import Viewport.
Local Open Scope Q_scope.

Lemma gtb_true a b : gtb a b = true <-> b < a.
Proof.
  unfold gtb. rewrite negb_true_iff, <- not_true_iff_false, Qle_bool_iff.
  split; [apply Qnot_le_lt | apply Qlt_not_le].
Qed.

Lemma gtb_false a b : gtb a b = false <-> a <= b.
Proof.
  unfold gtb. rewrite negb_false_iff. apply Qle_bool_iff.
Qed.

(** The loop over all elements computes the largest of [maxWidth]
    and the right edges. *)
Lemma widest_maxOf rs :
  forall a a', a == a' -> widest a rs == maxOf a' rs.
Proof.
  unfold widest, maxOf.
  induction rs as [|r rs IH]; intros a a' Ha; simpl; [exact Ha|].
  apply IH.
  destruct (gtb r a) eqn:G; destruct (Qle_bool a' r) eqn:L; try reflexivity.
  - apply gtb_true in G. apply not_true_iff_false in L.
    exfalso. apply L. apply Qle_bool_iff. rewrite <- Ha. now apply Qlt_le_weak.
  - apply gtb_false in G. apply Qle_bool_iff in L.
    apply Qle_antisym; [now rewrite Ha | exact G].
  - exact Ha.
Qed.

Lemma recommend_clamp dw :
  recommend dw = clamp (Qceiling (dw * (105 # 100))) 768 1400.
Proof.
  unfold recommend, clamp.
  destruct (Z.ltb_spec (Qceiling (dw * (105 # 100))) 768);
    [|destruct (Z.ltb_spec 1400 (Qceiling (dw * (105 # 100))))]; lia.
Qed.

(** C5 (as amended). The recommended width is
    [clamp (ceil (m * 1.05), 768, 1400)] where [m] is the largest of
    the content-container width and the right edges of all elements;
    the document scroll width is reported but takes no part.  The
    result always lies in [[768, 1400]]. *)
Theorem recommended_width (g : Geometry) :
  recommendedWidth (measure g) =
    clamp (Qceiling (maxOf (maxWidth g) (rights g) * (105 # 100))) 768 1400
  /\ (768 <= recommendedWidth (measure g) <= 1400)%Z.
Proof.
  split.
  - cbn [measure recommendedWidth]. rewrite recommend_clamp.
    unfold rawDocumentWidth.
    now rewrite (widest_maxOf (rights g) (maxWidth g) (maxWidth g) (Qeq_refl _)).
  - cbn [measure recommendedWidth]. unfold recommend. lia.
Qed.

(** A document without any width and one of 10000 pixels. *)
Example extreme_documents :
  recommendedWidth (measure (mkGeometry [] 0 [0; 0] 0 0)) = 768%Z
  /\ recommendedWidth
       (measure (mkGeometry [Some (mkBox (10000 # 1) (Some 0) (Some 0))]
                            (10000 # 1) [10000 # 1] 10000 10000)) = 1400%Z.
Proof. split; reflexivity. Qed.

(** C5 (as stated) fails: the scroll width (1920) is the largest
    tracked width of [narrowRoot] and would give 1400, but the
    resolver recommends [ceil (800 * 1.05) = 840]. *)
Lemma scroll_width_counterexample :
  ~ (forall g : Geometry,
        recommendedWidth (measure g) =
          clamp (Qceiling
                   (maxOf (maxWidth g)
                          (rights g ++ [inject_Z (scrollWidth (measure g))])
                    * (105 # 100))) 768 1400
        /\ (768 <= recommendedWidth (measure g) <= 1400)%Z).
Proof.
  intros H. destruct (H narrowRoot) as (Heq & _).
  vm_compute in Heq. discriminate Heq.
Qed.

End ViewportFacts.

(* ------------------------------------------------------------------ *)
(** * Properties of the archiver *)
(* ------------------------------------------------------------------ *)

Module ArchiverFacts.
Import Pdf Toc Viewport Archiver.

(** ** Manual width *)

(** A call that neither measures the page nor touches a width other
    than [n]. *)
Definition Quiet (n : Z) (c : Call) : Prop :=
  match c with
  | MeasureGeometry => False
  | SetViewport w _ => w = n
  | PrintPdf w _ => w = n
  | _ => True
  end.

(** The archiver holds the manual width [n] and its page has it. *)
Definition Manual (n : Z) (a : BlogArchiver) : Prop :=
  viewportWidth a = Px n /\ page a = Some n /\ Forall (Quiet n) (calls a).

(** A method that keeps an archiver in manual mode. *)
Definition Keeps (n : Z) {A} (m : Job A) : Prop :=
  forall a, Manual n a -> Manual n (fst (m a)).

Lemma Keeps_ret n {A} (x : A) : Keeps n (ret x).
Proof. intros a Ha. exact Ha. Qed.

Lemma Keeps_lift n {A} (r : Result A) : Keeps n (lift r).
Proof. intros a Ha. exact Ha. Qed.

Lemma Keeps_throwIf n o : Keeps n (throwIf o).
Proof. intros a Ha. unfold throwIf. destruct o; exact Ha. Qed.

Lemma Keeps_call n c : Quiet n c -> Keeps n (call c).
Proof.
  intros Hc a (Hw & Hp & Hcalls). unfold call, Manual. cbn.
  repeat split; auto. apply Forall_app. split; auto.
Qed.

Lemma Keeps_bind n {A B} (m : Job A) (k : A -> Job B) :
  Keeps n m -> (forall x, Keeps n (k x)) -> Keeps n (bindJ m k).
Proof.
  intros Hm Hk a Ha. unfold bindJ. specialize (Hm a Ha).
  destruct (m a) as [a1 [x|e]]; cbn in Hm |- *; auto.
  now apply Hk.
Qed.

Create HintDb keeps.
#[local] Hint Resolve Keeps_ret Keeps_lift Keeps_throwIf Keeps_bind : keeps.

Lemma Keeps_extractHeadings n site url : Keeps n (extractHeadings site url).
Proof.
  unfold extractHeadings.
  repeat (apply Keeps_bind; [|intros ?]); auto with keeps;
    apply Keeps_call; exact I.
Qed.

Lemma Keeps_resolveViewport n site url :
  n <> 1280 -> Keeps n (resolveViewport site url).
Proof.
  intros Hn a Ha. unfold resolveViewport.
  destruct Ha as (Hw & Hp & Hc). rewrite Hw. cbn [wantsDetection].
  replace (n =? 1280) with false by (symmetry; now apply Z.eqb_neq).
  cbn. now repeat split.
Qed.

Lemma Keeps_printPdf n site : Keeps n (printPdf site).
Proof.
  intros a Ha. unfold printPdf. pose proof Ha as (Hw & Hp & Hc). rewrite Hp.
  apply (Keeps_bind n (call (PrintPdf n (fullPage a)))
                    (fun _ => lift (printed site n (fullPage a)))); auto with keeps.
  apply Keeps_call. reflexivity.
Qed.

Section Batch.

Variable size : PageSize.
Variable today : string.
Variable now : Z.
Variable hostname : string -> string.
Variable pathJoin : string -> string -> string.
Variable timestamp : nat -> string.
Variable siteAt : nat -> string -> Site.
Variable outputDir : string.
Variable delay : Z.

Local Abbreviation job := (generatePDFWithTOC size today now).
Local Abbreviation step :=
  (iteration size today now hostname pathJoin timestamp siteAt outputDir delay).
Local Abbreviation loop :=
  (processUrls size today now hostname pathJoin timestamp siteAt outputDir delay).

Lemma Keeps_job n site url outputPath :
  n <> 1280 -> Keeps n (job site url outputPath).
Proof.
  intros Hn. unfold generatePDFWithTOC.
  apply Keeps_bind; [now apply Keeps_resolveViewport | intros _].
  apply Keeps_bind; [apply Keeps_extractHeadings | intros headings].
  apply Keeps_bind; [apply Keeps_call; exact I | intros _].
  apply Keeps_bind;
    [destruct (hasOverflow site); [apply Keeps_call; exact I | apply Keeps_ret]
    | intros _].
  apply Keeps_bind; [apply Keeps_printPdf | intros pdfBuffer].
  apply Keeps_bind; [apply Keeps_lift | intros out].
  apply Keeps_bind; [apply Keeps_call; exact I | intros _].
  apply Keeps_bind; [apply Keeps_throwIf | intros _].
  apply Keeps_ret.
Qed.

Lemma Manual_step n m i url a :
  n <> 1280 -> Manual n a -> Manual n (fst (step m i url a)).
Proof.
  intros Hn Ha. unfold iteration.
  pose proof (Keeps_job n (siteAt i url) url
                (outputPathOf hostname pathJoin timestamp outputDir i url) Hn a Ha) as H.
  destruct (job (siteAt i url) url _ a) as [a1 [p|e]]; cbn [fst] in *; auto.
  destruct ((Z.of_nat i <? Z.of_nat m - 1) && (Z.of_nat m >? 1)); auto.
  apply (Keeps_call n (Sleep delay) I a1 H).
Qed.

Lemma Manual_loop n m urls :
  n <> 1280 ->
  forall i a results, Manual n a -> Manual n (fst (loop m i urls a results)).
Proof.
  intros Hn. induction urls as [|url urls IH]; intros i a results Ha; cbn; auto.
  pose proof (Manual_step n m i url a Hn Ha) as H.
  destruct (step m i url a) as [a1 r]. now apply IH.
Qed.

Lemma construct_manual s n fp :
  JS.parseInt s = Some n -> n <> 0 ->
  construct (mkOptions (Some s) fp) = mkArchiver (Px n) fp None [].
Proof.
  intros Hs Hn. unfold construct. cbn [o_width o_fullPage].
  destruct (String.eqb_spec s "auto") as [->|_]; [discriminate Hs|].
  rewrite Hs. now replace (n =? 0) with false by (symmetry; now apply Z.eqb_neq).
Qed.

(** C6 (as amended). When the width option is a positive number
    other than 1280, the archiver made from it never measures a page
    in the whole run: every viewport it sets and every PDF it prints
    has the supplied width, and the width it holds stays the supplied
    one. *)
Theorem manual_width_skips_detection s n fp m urls :
  JS.parseInt s = Some n ->
  0 < n ->
  n <> 1280 ->
  let a0 := fst (init None (construct (mkOptions (Some s) fp))) in
  let a1 := fst (loop m 0%nat urls a0 []) in
  viewportWidth a1 = Px n
  /\ page a1 = Some n
  /\ Forall (Quiet n) (calls a1).
Proof.
  intros Hs H0 H1 a0 a1. subst a0 a1.
  rewrite (construct_manual s n fp Hs) by lia.
  apply (Manual_loop n m urls H1). cbn. repeat split. repeat constructor.
Qed.

(** ** The batch loop *)

Lemma step_url m i url a : r_url (snd (step m i url a)) = url.
Proof.
  unfold iteration.
  destruct (job (siteAt i url) url _ a) as [a1 [p|e]]; reflexivity.
Qed.

(** The loop only appends to [results], one record per URL. *)
Lemma loop_results m urls :
  forall i a results,
    exists new,
      snd (loop m i urls a results) = results ++ new /\ map r_url new = urls.
Proof.
  induction urls as [|url urls IH]; intros i a results; cbn.
  - exists []. now rewrite app_nil_r.
  - pose proof (step_url m i url a) as Hu.
    destruct (step m i url a) as [a1 r]. cbn [snd] in Hu.
    destruct (IH (S i) a1 (results ++ [r])) as (new & Hnew & Hmap).
    exists (r :: new). rewrite Hnew, <- app_assoc. cbn. now rewrite Hu, Hmap.
Qed.

(** The archiver the loop leaves does not depend on the records. *)
Lemma loop_state m urls :
  forall i a results results',
    fst (loop m i urls a results) = fst (loop m i urls a results').
Proof.
  induction urls as [|url urls IH]; intros i a results results'; cbn; auto.
  destruct (step m i url a) as [a1 r]. apply IH.
Qed.

(** The archiver as the [k]-th iteration finds it. *)
Definition stateBefore (m : nat) (urls : list string) (a0 : BlogArchiver) (k : nat)
  : BlogArchiver :=
  fst (loop m 0%nat (firstn k urls) a0 []).

Lemma loop_nth m urls :
  forall i a results k url,
    nth_error urls k = Some url ->
    nth_error (snd (loop m i urls a results)) (List.length results + k) =
    Some (snd (step m (i + k) url (fst (loop m i (firstn k urls) a [])))).
Proof.
  induction urls as [|u urls IH]; intros i a results k url Hk.
  - destruct k; discriminate.
  - destruct k as [|k]; cbn in Hk.
    + injection Hk as ->. cbn [processUrls firstn fst].
      destruct (step m i url a) as [a1 r] eqn:Hstep.
      destruct (loop_results m urls (S i) a1 (results ++ [r])) as (new & -> & _).
      rewrite <- app_assoc, !Nat.add_0_r, nth_error_app2, Nat.sub_diag by lia.
      cbn. now rewrite Hstep.
    + cbn [processUrls firstn].
      destruct (step m i u a) as [a1 r].
      specialize (IH (S i) a1 (results ++ [r]) k url Hk).
      rewrite length_app in IH. cbn [List.length] in IH.
      replace (List.length results + S k)%nat with (List.length results + 1 + k)%nat by lia.
      rewrite IH. replace (i + S k)%nat with (S i + k)%nat by lia.
      now rewrite (loop_state m (firstn k urls) (S i) a1 ([] ++ [r]) []).
Qed.

(** C8. A job that throws leaves a failed record with its URL and
    the message of the error; the loop goes on, so that there is one
    record per URL of the batch, each of them produced by running the
    job for that URL (the later ones included), and the failed record
    is in the list of failures of the summary. *)
Theorem batch_survives_failure urls a0 k url e :
  nth_error urls k = Some url ->
  snd (job (siteAt k url) url
           (outputPathOf hostname pathJoin timestamp outputDir k url)
           (stateBefore (List.length urls) urls a0 k)) = Err e ->
  let results := snd (loop (List.length urls) 0%nat urls a0 []) in
  map r_url results = urls
  /\ nth_error results k = Some (mkRecord url failed None (Some (message e)))
  /\ In (mkRecord url failed None (Some (message e))) (failedJobs results)
  /\ (forall j u,
        nth_error urls j = Some u ->
        nth_error results j =
        Some (snd (step (List.length urls) j u
                        (stateBefore (List.length urls) urls a0 j)))).
Proof.
  intros Hk Hfail results.
  assert (Hall : forall j u,
             nth_error urls j = Some u ->
             nth_error results j =
             Some (snd (step (List.length urls) j u
                             (stateBefore (List.length urls) urls a0 j)))).
  { intros j u Hj. exact (loop_nth (List.length urls) urls 0%nat a0 [] j u Hj). }
  assert (Hrec : nth_error results k = Some (mkRecord url failed None (Some (message e)))).
  { rewrite (Hall k url Hk). unfold iteration.
    destruct (job (siteAt k url) url _ (stateBefore (List.length urls) urls a0 k))
      as [a1 r]. cbn [snd] in Hfail. subst r. reflexivity. }
  repeat split; auto.
  - subst results.
    destruct (loop_results (List.length urls) urls 0%nat a0 []) as (new & -> & Hmap).
    exact Hmap.
  - unfold failedJobs. apply filter_In. split; [|reflexivity].
    eapply nth_error_In; eauto.
Qed.

End Batch.

(** ** A small world to run the archiver in *)

(** A page with one heading, printed as a one-page PDF that remembers
    the viewport width it was printed at. *)
Definition samplePage (g : Geometry) : Site :=
  mkSite None g None (Ok [mkElement 1 "Intro" "intro"]) "Post" false
         (fun w _ => Ok (Serialized (mkDoc [mkPage (Some (Z.to_N w)) []] noMeta)))
         None.

(** A page that never reaches network idle. *)
Definition stalledPage : Site :=
  mkSite (Some (mkError "Navigation timeout of 60000 ms exceeded"))
         narrowRoot
         (Some (mkError "Navigation timeout of 60000 ms exceeded"))
         (Ok []) "" false
         (fun _ _ => Err (mkError "Protocol error")) None.

Definition sampleLoop (world : nat -> string -> Site) :=
  processUrls A4 "September 25, 2024" 0 (fun url => url) String.append
              (fun _ => "2024-09-25T14-30-45") world "./archive" 2000.

(** The first URL is the narrow page, every other one the wide page. *)
Definition narrowThenWide (i : nat) (url : string) : Site :=
  match i with
  | O => samplePage narrowRoot
  | _ => samplePage wideRoot
  end.

Definition measurements (cs : list Call) : nat :=
  List.length (filter (fun c => match c with MeasureGeometry => true | _ => false end) cs).

Definition printedWidths (cs : list Call) : list Z :=
  flat_map (fun c => match c with PrintPdf w _ => [w] | _ => [] end) cs.

Lemma manual_width_skips_detection_witness :
  let a0 := fst (init None (construct (mkOptions (Some "1024") false))) in
  let a1 := fst (sampleLoop narrowThenWide 2 0%nat ["https://a.io/p"; "https://b.io/q"]
                            a0 []) in
  JS.parseInt "1024" = Some 1024
  /\ printedWidths (calls a1) = [1024; 1024]
  /\ viewportWidth a1 = Px 1024
  /\ page a1 = Some 1024
  /\ Forall (Quiet 1024) (calls a1).
Proof.
  intros a0 a1. split; [reflexivity|]. split; [reflexivity|].
  apply (manual_width_skips_detection A4 "September 25, 2024" 0 (fun url => url)
           String.append (fun _ => "2024-09-25T14-30-45") narrowThenWide "./archive" 2000
           "1024" 1024 false 2 ["https://a.io/p"; "https://b.io/q"]);
    [reflexivity | lia | lia].
Defined.

(** C6 (as stated) fails for the width 1280: the archiver measures
    the page and prints at the measured width. *)
Lemma manual_1280_counterexample :
  ~ (forall s n fp m urls,
        JS.parseInt s = Some n ->
        let a0 := fst (init None (construct (mkOptions (Some s) fp))) in
        let a1 := fst (sampleLoop narrowThenWide m 0%nat urls a0 []) in
        viewportWidth a1 = Px n
        /\ page a1 = Some n
        /\ Forall (Quiet n) (calls a1)).
Proof.
  intros H.
  destruct (H "1280" 1280 false 1%nat ["https://a.io/p"] eq_refl) as (Hw & _).
  vm_compute in Hw. discriminate Hw.
Qed.

(** C7 on a batch of two URLs with the default width ['auto'].  The
    first page is measured (840); the second page, for which the
    resolver would recommend 1400, is not measured at all and is
    printed at the 840 of the first. *)
Theorem second_job_reuses_width :
  let a0 := fst (init None (construct (mkOptions (Some "auto") false))) in
  let run := sampleLoop narrowThenWide 2 0%nat ["https://a.io/p"; "https://b.io/q"] a0 [] in
  measurements (calls (fst run)) = 1%nat
  /\ printedWidths (calls (fst run)) = [840; 840]
  /\ viewportWidth (fst run) = Px 840
  /\ recommendedWidth (measure (geometry (narrowThenWide 1 "https://b.io/q"))) = 1400
  /\ map r_status (snd run) = [success; success].
Proof.
  vm_compute. repeat split; reflexivity.
Qed.

(** The first URL stalls, the others load. *)
Definition stalledThenFine (i : nat) (url : string) : Site :=
  match i with
  | O => stalledPage
  | _ => samplePage wideRoot
  end.

Lemma batch_survives_failure_witness :
  let urls := ["https://slow.io/p"; "https://b.io/q"] in
  let a0 := fst (init None (construct (mkOptions (Some "auto") false))) in
  let results := snd (sampleLoop stalledThenFine 2 0%nat urls a0 []) in
  map r_url results = urls
  /\ nth_error results 0 =
     Some (mkRecord "https://slow.io/p" failed None
                    (Some "Navigation timeout of 60000 ms exceeded"))
  /\ failedJobs results =
     [mkRecord "https://slow.io/p" failed None
               (Some "Navigation timeout of 60000 ms exceeded")]
  /\ map r_status results = [failed; success].
Proof.
  intros urls a0 results.
  destruct (batch_survives_failure A4 "September 25, 2024" 0 (fun url => url)
              String.append (fun _ => "2024-09-25T14-30-45") stalledThenFine
              "./archive" 2000 urls a0 0 "https://slow.io/p"
              (mkError "Navigation timeout of 60000 ms exceeded") eq_refl eq_refl)
    as (Hurls & Hrec & _ & _).
  split; [exact Hurls|]. split; [exact Hrec|]. split; reflexivity.
Defined.

End ArchiverFacts.

(* ------------------------------------------------------------------ *)
(** * Properties of the popup *)
(* ------------------------------------------------------------------ *)

Module PopupFacts.
Import Popup.

(** C10. A [generatePDF] message is only ever sent with the URL of
    the active tab, and only when that URL exists, is not empty and
    starts with neither [chrome://] nor [edge://]; when the URL is
    missing or of one of these two kinds the handler shows the error
    status and does nothing else; otherwise, unless [sendMessage]
    throws, the message is sent. *)
Theorem popup_dispatch tabs sendError response :
  let effects := onGenerateClick tabs sendError response in
  (forall a u t,
      In (SendMessage a u t) effects ->
      a = "generatePDF"
      /\ exists tab rest,
          tabs = tab :: rest /\ tabUrl tab = Some u /\ tabTitle tab = t
          /\ u <> ""
          /\ JS.startsWith "chrome://" u = false
          /\ JS.startsWith "edge://" u = false)
  /\ (forall tab rest,
        tabs = tab :: rest ->
        (tabUrl tab = None \/ tabUrl tab = Some ""
         \/ exists u, tabUrl tab = Some u
                      /\ (JS.startsWith "chrome://" u = true
                          \/ JS.startsWith "edge://" u = true)) ->
        effects = [ShowStatus "Cannot generate PDF for this page" "error"])
  /\ (forall tab rest u,
        tabs = tab :: rest -> tabUrl tab = Some u ->
        u <> "" ->
        JS.startsWith "chrome://" u = false ->
        JS.startsWith "edge://" u = false ->
        sendError = None ->
        In (SendMessage "generatePDF" u (tabTitle tab)) effects).
Proof.
  intros effects. subst effects. split; [|split].
  - intros a u t Hin. unfold onGenerateClick in Hin.
    destruct tabs as [|tab rest].
    { destruct Hin as [H|[]]; discriminate H. }
    destruct (tabUrl tab) as [u0|] eqn:Hu.
    2:{ destruct Hin as [H|[]]; discriminate H. }
    destruct (negb (JS.truthy u0) || JS.startsWith "chrome://" u0
              || JS.startsWith "edge://" u0) eqn:Href.
    { destruct Hin as [H|[]]; discriminate H. }
    apply orb_false_iff in Href as (Href & Hedge).
    apply orb_false_iff in Href as (Hempty & Hchrome).
    cbn [app] in Hin.
    destruct Hin as [H|[H|Hin]]; try discriminate H.
    destruct sendError as [e|].
    + destruct Hin as [H|[H|[]]]; discriminate H.
    + destruct Hin as [H|Hin].
      * injection H as <- <- <-. split; [reflexivity|].
        exists tab, rest. repeat split; auto.
        intros ->. discriminate Hempty.
      * unfold onResponse in Hin. destruct Hin as [H|Hin]; [discriminate H|].
        destruct (succeeded response).
        -- destruct Hin as [H|[H|[]]]; discriminate H.
        -- destruct Hin as [H|[]]; discriminate H.
  - intros tab rest -> Hbad. unfold onGenerateClick.
    destruct Hbad as [->|[->|(u & -> & [H|H])]]; auto.
    + rewrite H. now rewrite orb_true_r.
    + rewrite H. now rewrite orb_true_r.
  - intros tab rest u -> Hu Hne Hc He ->. unfold onGenerateClick.
    rewrite Hu, Hc, He.
    destruct u as [|c u]; [congruence|]. cbn. auto.
Qed.

Lemma popup_dispatch_witness :
  let web := mkTab (Some "https://a.io/p") (Some "Post") in
  let internal := mkTab (Some "chrome://extensions") (Some "Extensions") in
  let answer := mkResponse true None in
  In (SendMessage "generatePDF" "https://a.io/p" (Some "Post"))
     (onGenerateClick [web] None answer)
  /\ onGenerateClick [internal] None answer =
     [ShowStatus "Cannot generate PDF for this page" "error"]
  /\ onGenerateClick [mkTab None None] None answer =
     [ShowStatus "Cannot generate PDF for this page" "error"].
Proof.
  intros web internal answer. split; [|split].
  - apply (proj2 (proj2 (popup_dispatch [web] None answer)) web [] "https://a.io/p");
      try reflexivity.
    discriminate.
  - apply (proj1 (proj2 (popup_dispatch [internal] None answer)) internal []);
      [reflexivity|].
    right. right. exists "chrome://extensions". split; [reflexivity|]. left. reflexivity.
  - apply (proj1 (proj2 (popup_dispatch [mkTab None None] None answer)) (mkTab None None) []);
      [reflexivity|]. left. reflexivity.
Defined.

End PopupFacts.

(* ------------------------------------------------------------------ *)
(** * Further properties of the TOC composer *)
(* ------------------------------------------------------------------ *)

Module TocMore.
Import Pdf Toc TocFacts.

(** What the guard of [generatePDFWithTOC] does with a rendered buffer
    that is not a PDF: without headings the composition step returns
    the buffer as it is, parseable or not, so that it is written
    unchecked; with at least one heading the step throws, since
    [addTOC] starts by loading the buffer.  Hence a step that returns
    with headings was given a parseable buffer. *)
Theorem composeOutput_unparseable size today now title url :
  (forall buffer, composeOutput size today now buffer [] title url = Ok buffer)
  /\ (forall raw h hs,
        exists e,
          composeOutput size today now (Malformed raw) (h :: hs) title url = Err e)
  /\ (forall buffer h hs out,
        composeOutput size today now buffer (h :: hs) title url = Ok out ->
        exists content, buffer = Serialized content /\ out <> buffer).
Proof.
  split; [|split].
  - intros buffer. reflexivity.
  - intros raw h hs. unfold composeOutput.
    replace (Z.of_nat (List.length (h :: hs)) >? 0) with true
      by (symmetry; apply Z.gtb_lt; cbn [List.length]; lia).
    unfold addTOC. cbn [load bind]. eexists. reflexivity.
  - intros buffer h hs out. unfold composeOutput.
    replace (Z.of_nat (List.length (h :: hs)) >? 0) with true
      by (symmetry; apply Z.gtb_lt; cbn [List.length]; lia).
    unfold addTOC. destruct buffer as [content|raw]; cbn [load bind]; [|discriminate].
    intros Hout. exists content. split; [reflexivity|].
    injection Hout as <-. unfold save. intros E. injection E as E.
    apply (f_equal (fun d => List.length (pages d))) in E. cbn [pages] in E.
    rewrite fold_addCopied, length_app in E.
    destruct (layoutTOC_shape size today (h :: hs) (getPageCount content) title url)
      as (b & Hdoc & _ & _).
    rewrite Hdoc in E. cbn [List.length] in E. lia.
Qed.

Lemma composeOutput_unparseable_witness :
  let content := mkDoc [mkPage (Some 1%N) []] noMeta in
  let hs := [mkHeading 0 1 "Intro" "intro"] in
  exists out,
    composeOutput A4 "September 25, 2024" 0 (Serialized content) hs "Post" "u" = Ok out
    /\ out <> Serialized content.
Proof.
  intros content hs. eexists. split; [reflexivity|].
  destruct (proj2 (proj2 (composeOutput_unparseable A4 "September 25, 2024" 0 "Post" "u"))
                  (Serialized content) (mkHeading 0 1 "Intro" "intro") [] _ eq_refl)
    as (c & _ & Hne).
  exact Hne.
Defined.

(** ** The cursor *)

(** The cursor never rises above the top margin and no entry is
    logged outside the band between the bottom threshold and the top
    margin. *)
Definition InBand (size : PageSize) (st : Loop) : Prop :=
  yPosition st <= height size - pt margin
  /\ Forall (fun e => pt (margin + 50) <= e_y e <= height size - pt margin) (log st).

Lemma layoutHeading_band size tocPage headings P st h :
  pt (margin + 50) <= height size - pt margin ->
  InBand size st -> InBand size (layoutHeading size tocPage headings P st h).
Proof.
  intros Hsize (Hy & Hlog). unfold layoutHeading, addPage, InBand.
  assert (Hfont : 0 <= pt ((if level h =? 1 then 12 else 10) + 8))
    by (unfold pt; destruct (level h =? 1); lia).
  destruct (Z.ltb_spec (yPosition st) (pt (margin + 50))) as [Hlow|Hok];
    cbn [yPosition log]; (split; [lia|]);
    apply Forall_app; (split; [exact Hlog|]);
    constructor; cbn [e_y]; auto; lia.
Qed.

Lemma fold_band size tocPage headings P hs :
  pt (margin + 50) <= height size - pt margin ->
  forall st,
    InBand size st ->
    InBand size (fold_left (layoutHeading size tocPage headings P) hs st).
Proof.
  intros Hsize. induction hs as [|h hs IH]; intros st Hst; cbn; auto.
  apply IH. now apply layoutHeading_band.
Qed.

(** On a page at least 150 points high every TOC entry is drawn at or
    above the bottom threshold [margin + 50] and at or below the top
    margin: the overflow check keeps the entries out of the bottom
    100 points of the page. *)
Theorem entries_within_band size today headings P title url :
  pt 150 <= height size ->
  Forall (fun e => pt (margin + 50) <= e_y e <= height size - pt margin)
         (log (layoutTOC size today headings P title url)).
Proof.
  intros Hsize. unfold layoutTOC. cbn [addPage pages create app List.length].
  apply fold_band.
  - unfold pt, margin in *. lia.
  - split; cbn [yPosition log]; [unfold pt; lia | constructor].
Qed.

Lemma entries_within_band_witness :
  pt 150 <= height A4
  /\ Forall (fun e => 10000 <= e_y e <= 79189)
            (log (layoutTOC A4 "September 25, 2024" (sampleHeadings 40) 3
                            "Post" "https://a.io/p")).
Proof.
  split; [vm_compute; discriminate|].
  apply (entries_within_band A4 "September 25, 2024" (sampleHeadings 40) 3
           "Post" "https://a.io/p").
  vm_compute. discriminate.
Defined.

(** ** Capacity of the first page *)

Definition OnePage (st : Loop) : Prop :=
  List.length (doc st) = 1%nat
  /\ Forall (fun e => e_tocPages e = 1%nat) (log st).

Lemma fold_one_page size headings P hs :
  forall st,
    OnePage st ->
    pt (margin + 50) + pt 20 * Z.of_nat (List.length hs) <= yPosition st + pt 20 ->
    OnePage (fold_left (layoutHeading size 0 headings P) hs st).
Proof.
  induction hs as [|h hs IH]; intros st Hone Hy; cbn [fold_left]; auto.
  cbn [List.length] in Hy. rewrite Nat2Z.inj_succ in Hy.
  assert (Hfont : 0 <= pt ((if level h =? 1 then 12 else 10) + 8) <= pt 20)
    by (unfold pt; destruct (level h =? 1); lia).
  destruct Hone as (Hdoc & Hlog).
  destruct (doc st) as [|p0 [|p1 rest]] eqn:Hd; try discriminate Hdoc.
  apply IH.
  - unfold layoutHeading, addPage, OnePage.
    destruct (Z.ltb_spec (yPosition st) (pt (margin + 50))) as [Hlow|Hok];
      [unfold pt in *; lia|].
    rewrite Hd. cbn [doc log drawText updateNth List.length]. split; [reflexivity|].
    apply Forall_app. split; [exact Hlog|]. now constructor.
  - unfold layoutHeading, addPage.
    destruct (Z.ltb_spec (yPosition st) (pt (margin + 50))) as [Hlow|Hok];
      [unfold pt in *; lia|].
    cbn [yPosition]. unfold pt in *. lia.
Qed.

(** A TOC of [H] headings stays on its first page when
    [20 * H <= height - 220] points (31 headings on an A4 page):
    then no overflow page is allocated and every entry is laid out
    while the TOC has one page. *)
Theorem toc_single_page size today headings P title url :
  pt 20 * Z.of_nat (List.length headings) <= height size - pt 220 ->
  tocPageCount size today headings P title url = 1%nat
  /\ Forall (fun e => e_tocPages e = 1%nat)
            (log (layoutTOC size today headings P title url)).
Proof.
  intros Hcap. unfold tocPageCount, layoutTOC.
  cbn [addPage pages create app List.length].
  apply fold_one_page.
  - split; [reflexivity | constructor].
  - cbn [yPosition]. unfold pt, margin in *. lia.
Qed.

Lemma toc_single_page_witness :
  pt 20 * Z.of_nat (List.length (sampleHeadings 31)) <= height A4 - pt 220
  /\ tocPageCount A4 "September 25, 2024" (sampleHeadings 31) 5 "Post" "https://a.io/p"
     = 1%nat
  /\ Forall (fun e => e_tocPages e = 1%nat)
            (log (layoutTOC A4 "September 25, 2024" (sampleHeadings 31) 5
                            "Post" "https://a.io/p")).
Proof.
  split; [vm_compute; discriminate|].
  apply (toc_single_page A4 "September 25, 2024" (sampleHeadings 31) 5
           "Post" "https://a.io/p").
  vm_compute. discriminate.
Defined.

(** ** How the estimates spread over the content pages *)

(** With at least as many headings as content pages ([1 <= P <= H])
    the printed page numbers start at 2, end at [P + 1] and never
    jump by more than one from a heading to the next. *)
Theorem estimates_cover_pages size today headings P title url :
  distinctObjects headings ->
  1 <= P <= Z.of_nat (List.length headings) ->
  let entries := log (layoutTOC size today headings P title url) in
  (forall e, nth_error entries 0 = Some e -> e_estimatedPage e = 2)
  /\ (forall e, nth_error entries (List.length headings - 1) = Some e ->
                e_estimatedPage e = P + 1)
  /\ (forall i e e',
         nth_error entries i = Some e -> nth_error entries (S i) = Some e' ->
         e_estimatedPage e <= e_estimatedPage e' <= e_estimatedPage e + 1).
Proof.
  intros Hd HP entries. subst entries.
  set (H := Z.of_nat (List.length headings)) in *.
  repeat split.
  - intros e He.
    destruct (entry_at size today headings P title url 0 e Hd He) as (_ & -> & _).
    fold H. unfold currentPage. cbn [Z.of_nat]. rewrite Z.mul_0_l, Z.div_0_l by lia. lia.
  - intros e He.
    destruct (entry_at size today headings P title url _ e Hd He) as (_ & -> & _).
    fold H. unfold currentPage.
    replace (Z.of_nat (List.length headings - 1)) with (H - 1) by (subst H; lia).
    assert (Hq : (H - 1) * P / H = P - 1).
    { symmetry. apply (Z.div_unique_pos _ _ _ (H - P)); lia. }
    rewrite Hq. lia.
  - destruct (entry_at size today headings P title url i e Hd H0) as (_ & -> & _).
    destruct (entry_at size today headings P title url (S i) e' Hd H1) as (_ & -> & _).
    fold H. apply Z.min_le_compat_r, Z.add_le_mono_l.
    apply Z.div_le_mono; [lia | nia].
  - destruct (entry_at size today headings P title url i e Hd H0) as (_ & -> & _).
    destruct (entry_at size today headings P title url (S i) e' Hd H1) as (_ & -> & _).
    fold H. rewrite Nat2Z.inj_succ.
    assert (Hstep : Z.succ (Z.of_nat i) * P / H <= Z.of_nat i * P / H + 1).
    { rewrite <- (Z.div_add (Z.of_nat i * P) 1 H) by lia.
      apply Z.div_le_mono; [lia | nia]. }
    lia.
Qed.

Lemma estimates_cover_pages_witness :
  let hs := sampleHeadings 5 in
  map e_estimatedPage
      (log (layoutTOC A4 "September 25, 2024" hs 3 "Post" "https://a.io/p"))
    = [2; 2; 3; 3; 4]
  /\ (forall e,
         nth_error (log (layoutTOC A4 "September 25, 2024" hs 3 "Post" "https://a.io/p")) 4
           = Some e ->
         e_estimatedPage e = 3 + 1).
Proof.
  intros hs. split; [reflexivity|].
  exact (proj1 (proj2 (estimates_cover_pages A4 "September 25, 2024" hs 3 "Post"
                         "https://a.io/p" (sampleHeadings_distinct 5)
                         (conj (proj1 (Z.leb_le 1 3) eq_refl) (proj1 (Z.leb_le 3 5) eq_refl))))).
Defined.

End TocMore.

(* ------------------------------------------------------------------ *)
(** * Properties of the heading extraction *)
(* ------------------------------------------------------------------ *)

Module ExtractFacts.
Import Pdf Toc Archiver.



Lemma headingsFrom_levels els :
  forall k, map level (headingsFrom k els) = map tagLevel els.
Proof.
  induction els as [|el els IH]; intros k; cbn; [reflexivity|].
  now rewrite IH.
Qed.







End ExtractFacts.

(* ------------------------------------------------------------------ *)
(** * Further properties of the viewport resolver *)
(* ------------------------------------------------------------------ *)

Module ViewportMore.
Import Viewport ViewportFacts.
Local Open Scope Q_scope.

Lemma widest_ge_start rs : forall a, a <= widest a rs.
Proof.
  unfold widest. induction rs as [|r rs IH]; intros a; cbn; [apply Qle_refl|].
  destruct (gtb r a) eqn:G.
  - apply gtb_true in G. eapply Qle_trans; [apply Qlt_le_weak, G | apply IH].
  - apply IH.
Qed.

Lemma widest_ge_each rs : forall a r, In r rs -> r <= widest a rs.
Proof.
  induction rs as [|x rs IH]; intros a r Hin; [destruct Hin|].
  unfold widest in *. cbn [fold_left].
  destruct Hin as [->|Hin]; [|now apply IH].
  destruct (gtb r a) eqn:G.
  - apply (widest_ge_start rs r).
  - apply gtb_false in G.
    eapply Qle_trans; [exact G | apply (widest_ge_start rs a)].
Qed.

(** The reported content width never exceeds the reported document
    width. *)
Theorem content_within_document (g : Geometry) :
  (contentWidth (measure g) <= documentWidth (measure g))%Z.
Proof.
  cbn [measure contentWidth documentWidth].
  apply Qceiling_resp_le. unfold rawDocumentWidth. apply widest_ge_start.
Qed.

(** The recommended width leaves the 5 percent pad to every element
    of the page, up to the ceiling of 1400: for each right edge [r],
    [min (1400, ceil (r * 1.05))] is at most the recommendation. *)
Theorem recommended_covers_elements (g : Geometry) (r : Q) :
  In r (rights g) ->
  (Z.min 1400 (Qceiling (r * (105 # 100))) <= recommendedWidth (measure g))%Z.
Proof.
  intros Hin. cbn [measure recommendedWidth]. unfold recommend.
  assert (Hle : (Qceiling (r * (105 # 100))
                 <= Qceiling (rawDocumentWidth g * (105 # 100)))%Z).
  { apply Qceiling_resp_le. apply Qmult_le_compat_r; [|discriminate].
    unfold rawDocumentWidth. now apply widest_ge_each. }
  lia.
Qed.

Lemma recommended_covers_elements_witness :
  In (1000 # 1) (rights (mkGeometry [None] (800 # 1) [800 # 1; 1000 # 1] 800 1920))
  /\ (Z.min 1400 1050
      <= recommendedWidth
           (measure (mkGeometry [None] (800 # 1) [800 # 1; 1000 # 1] 800 1920)))%Z.
Proof.
  split; [right; left; reflexivity|].
  apply (recommended_covers_elements
           (mkGeometry [None] (800 # 1) [800 # 1; 1000 # 1] 800 1920) (1000 # 1)).
  right; left; reflexivity.
Defined.

(** A container counts only with a positive total width that is a
    number. *)
Definition usable (found : option Box) : Prop :=
  match found with
  | Some b =>
      match totalWidth b with
      | Some w => 0 < w
      | None => False
      end
  | None => False
  end.

Lemma probe_unusable cs :
  Forall (fun c => ~ usable c) cs ->
  fold_left probeSelector cs (false, 0) = (false, 0).
Proof.
  induction 1 as [|c cs Hc _ IH]; cbn [fold_left]; [reflexivity|].
  replace (probeSelector (false, 0) c) with (false, 0); [exact IH|].
  unfold probeSelector, usable in *. destruct c as [b|]; [|reflexivity].
  destruct (totalWidth b) as [w|]; [|reflexivity]. cbn [snd].
  destruct (gtb w 0) eqn:G; [|reflexivity].
  apply gtb_true in G. contradiction.
Qed.

(** When no selector matches an element of positive width (none
    matches, or the matches have no width or a margin that is not a
    number), the content width is that of the body. *)
Theorem body_fallback (g : Geometry) :
  Forall (fun c => ~ usable c) (containers g) ->
  maxWidth g = bodyWidth g /\ contentWidth (measure g) = Qceiling (bodyWidth g).
Proof.
  intros H. unfold measure, maxWidth. cbn [contentWidth].
  unfold maxWidth. rewrite (probe_unusable _ H). split; reflexivity.
Qed.

Lemma body_fallback_witness :
  let g := mkGeometry [None; Some (mkBox 0 (Some 0) (Some 0));
                       Some (mkBox (900 # 1) None (Some 0))]
                      (6405 # 10) [] 640 640 in
  contentWidth (measure g) = 641%Z.
Proof.
  intros g.
  rewrite (proj2 (body_fallback g
                    ltac:(repeat constructor; cbn; try tauto; intros H; discriminate H))).
  reflexivity.
Defined.

End ViewportMore.

(* ------------------------------------------------------------------ *)
(** * Properties of the overflow probe *)
(* ------------------------------------------------------------------ *)

Module OverflowFacts.
Import Overflow.

(** What the probe reports for an element that sticks out. *)
Definition report (viewportWidth : Z) (el : Watched) : Problem :=
  mkProblem (w_tag el) (w_class el) (w_right el - inject_Z viewportWidth)%Q.

Lemma inspect_fold vw els :
  forall found,
    fold_left (inspect vw) els found =
    found ++ map (report vw) (filter (sticksOut vw) els).
Proof.
  induction els as [|el els IH]; intros found; cbn [fold_left filter map].
  - now rewrite app_nil_r.
  - rewrite IH. unfold inspect. destruct (sticksOut vw el); cbn [map].
    + now rewrite <- app_assoc.
    + reflexivity.
Qed.

(** The elements reported are exactly the watched elements whose box
    leaves the viewport on the right or on the left, in document
    order; the overflow figure of each is its right edge minus the
    viewport width, so that an element that only sticks out on the
    left is reported with a figure that is not positive. *)
Theorem problematic_elements (l : Layout) :
  problematicElements (checkForOverflow l) =
    map (report (innerWidth l)) (filter (sticksOut (innerWidth l)) (watched l))
  /\ (forall el,
         In el (watched l) ->
         (w_left el < 0)%Q -> (w_right el <= inject_Z (innerWidth l))%Q ->
         In (report (innerWidth l) el) (problematicElements (checkForOverflow l))
         /\ (p_overflow (report (innerWidth l) el) <= 0)%Q).
Proof.
  assert (E : problematicElements (checkForOverflow l) =
              map (report (innerWidth l))
                  (filter (sticksOut (innerWidth l)) (watched l))).
  { cbn [checkForOverflow problematicElements]. now rewrite inspect_fold. }
  split; [exact E|].
  intros el Hin Hleft Hright. split.
  - rewrite E. apply in_map, filter_In. split; [exact Hin|].
    unfold sticksOut. apply orb_true_iff. right.
    now apply ViewportFacts.gtb_true.
  - cbn [report p_overflow]. clear - Hright.
    apply (Qplus_le_l _ _ (inject_Z (innerWidth l))). ring_simplify. exact Hright.
Qed.

Lemma problematic_elements_witness :
  let img := mkWatched "IMG" "hero" (-(40 # 1))%Q (600 # 1) in
  let l := mkLayout 800 800 800 800 800 [mkWatched "PRE" "" 0 (700 # 1); img] in
  problematicElements (checkForOverflow l) = [mkProblem "IMG" "hero" ((600 # 1) - 800)%Q]
  /\ (p_overflow (report 800 img) <= 0)%Q.
Proof.
  intros img l. split; [reflexivity|].
  apply (proj2 (problematic_elements l) img).
  - right; left; reflexivity.
  - reflexivity.
  - discriminate.
Defined.

(** The probe reports no overflow exactly when neither the body nor
    the root element scrolls horizontally and every watched element
    lies within the viewport. *)
Theorem no_overflow_iff (l : Layout) :
  hasOverflow (checkForOverflow l) = false
  <-> (bodyScroll l <= bodyClient l)%Z
      /\ (htmlScroll l <= htmlClient l)%Z
      /\ Forall (fun el => (0 <= w_left el)%Q
                           /\ (w_right el <= inject_Z (innerWidth l))%Q) (watched l).
Proof.
  cbn [checkForOverflow hasOverflow]. rewrite inspect_fold. cbn [app].
  rewrite !orb_false_iff, length_map.
  rewrite !Z.gtb_ltb, !Z.ltb_ge.
  split.
  - intros ((Hb & Hh) & Hnone). repeat split; auto.
    apply Forall_forall. intros el Hin.
    destruct (sticksOut (innerWidth l) el) eqn:S.
    + exfalso.
      assert (Hin' : In el (filter (sticksOut (innerWidth l)) (watched l)))
        by (apply filter_In; auto).
      destruct (filter (sticksOut (innerWidth l)) (watched l)); [destruct Hin'|].
      cbn [List.length] in Hnone. lia.
    + unfold sticksOut in S. apply orb_false_iff in S as (S1 & S2).
      apply ViewportFacts.gtb_false in S1, S2. split; assumption.
  - intros (Hb & Hh & Hall). repeat split; auto.
    replace (filter (sticksOut (innerWidth l)) (watched l)) with (@nil Watched);
      [cbn; lia|].
    symmetry. induction Hall as [|el els (H1 & H2) _ IH]; cbn [filter]; [reflexivity|].
    replace (sticksOut (innerWidth l) el) with false; [exact IH|].
    symmetry. unfold sticksOut. apply orb_false_iff.
    split; now apply ViewportFacts.gtb_false.
Qed.

End OverflowFacts.

(* ------------------------------------------------------------------ *)
(** * Properties of the lazy-load scrolling *)
(* ------------------------------------------------------------------ *)

Module ScrollFacts.
Import Scroll.

(** [n] steps down. *)
Definition steps (n : nat) : list ScrollCall := repeat (ScrollBy distance) n.

Lemma steps_snoc n : steps n ++ [ScrollBy distance] = steps (S n).
Proof.
  unfold steps. induction n as [|n IH]; cbn; [reflexivity|]. now rewrite IH.
Qed.

(** Where the timer stops: the first tick [k] at which the distance
    scrolled so far, [100 * (k + 1)], has reached the height read by
    that tick. *)
Lemma ticks_stop heightAt n :
  (forall j, (j < n)%nat -> distance * (Z.of_nat j + 1) < heightAt j) ->
  heightAt n <= distance * (Z.of_nat n + 1) ->
  forall fuel k,
    (k <= n)%nat -> (n - k < fuel)%nat ->
    ticks fuel heightAt k (distance * Z.of_nat k) (steps k) =
    Some (steps (S n) ++ [ScrollTo 0]).
Proof.
  intros Hbefore Hstop. induction fuel as [|fuel IH]; intros k Hk Hfuel; [lia|].
  cbn [ticks]. rewrite steps_snoc.
  destruct (Z.geb_spec (distance * Z.of_nat k + distance) (heightAt k)) as [Hge|Hlt].
  - assert (k = n) as ->; [|reflexivity].
    destruct (Nat.eq_dec k n) as [E|NE]; [exact E|].
    specialize (Hbefore k ltac:(lia)). lia.
  - assert (k <> n) by (intros ->; lia).
    replace (distance * Z.of_nat k + distance) with (distance * Z.of_nat (S k)) by lia.
    apply IH; lia.
Qed.

(** On a page whose height [h] does not change, the scrolling ends
    after [max (1, ceil (h / 100))] steps of 100 pixels, which cover
    the whole height, followed by the return to the top. *)
Theorem autoScroll_static (h : Z) (fuel : nat) :
  let n := Z.to_nat (Z.max 1 ((h + 99) / 100)) in
  (n <= fuel)%nat ->
  autoScroll fuel (fun _ => h) = Some (steps n ++ [ScrollTo 0])
  /\ h <= distance * Z.of_nat n.
Proof.
  intros n Hfuel. subst n. unfold distance in *.
  pose proof (Z.div_mod (h + 99) 100 ltac:(lia)) as Hdm.
  pose proof (Z.mod_pos_bound (h + 99) 100 ltac:(lia)) as Hmod.
  set (q := (h + 99) / 100) in *.
  set (n := Z.to_nat (Z.max 1 q)) in *.
  assert (Hn : Z.of_nat n = Z.max 1 q) by (subst n; lia).
  destruct n as [|n]; [lia|].
  split; [|lia].
  apply (ticks_stop (fun _ => h) n); unfold distance; lia.
Qed.

Lemma autoScroll_static_witness :
  autoScroll 10 (fun _ => 250) =
    Some [ScrollBy 100; ScrollBy 100; ScrollBy 100; ScrollTo 0]
  /\ 250 <= distance * 3.
Proof.
  apply (autoScroll_static 250 10). vm_compute. lia.
Defined.

(** On a page that loads content as it is scrolled, the scrolling
    still ends once the distance scrolled catches up with the height:
    if the height read at the [n]-th tick is the first that is at most
    [100 * (n + 1)], the timer makes [n + 1] steps and returns to the
    top. *)
Theorem autoScroll_catches_up heightAt n fuel :
  (forall j, (j < n)%nat -> distance * (Z.of_nat j + 1) < heightAt j) ->
  heightAt n <= distance * (Z.of_nat n + 1) ->
  (n < fuel)%nat ->
  autoScroll fuel heightAt = Some (steps (S n) ++ [ScrollTo 0]).
Proof.
  intros Hbefore Hstop Hfuel.
  apply (ticks_stop heightAt n Hbefore Hstop fuel 0%nat); lia.
Qed.

Lemma autoScroll_catches_up_witness :
  autoScroll 5 (fun k => match k with O => 150 | _ => 300 end) =
    Some [ScrollBy 100; ScrollBy 100; ScrollBy 100; ScrollTo 0].
Proof.
  apply (autoScroll_catches_up (fun k => match k with O => 150 | _ => 300 end) 2 5).
  - intros [|[|j]] Hj; unfold distance; cbn; lia.
  - unfold distance; cbn; lia.
  - lia.
Defined.

Lemma ticks_runaway heightAt :
  (forall k, distance * (Z.of_nat k + 1) < heightAt k) ->
  forall fuel k done,
    ticks fuel heightAt k (distance * Z.of_nat k) done = None.
Proof.
  intros Hgrow. induction fuel as [|fuel IH]; intros k done; [reflexivity|].
  cbn [ticks].
  destruct (Z.geb_spec (distance * Z.of_nat k + distance) (heightAt k)) as [Hge|Hlt].
  - specialize (Hgrow k). lia.
  - replace (distance * Z.of_nat k + distance) with (distance * Z.of_nat (S k)) by lia.
    apply IH.
Qed.

(** On a page that keeps growing ahead of the scrolling (every tick
    reads a height above the distance scrolled), the timer is never
    cleared: the promise of [autoScroll] is not resolved after any
    number of ticks. *)
Theorem autoScroll_never_ends heightAt :
  (forall k, distance * (Z.of_nat k + 1) < heightAt k) ->
  forall fuel, autoScroll fuel heightAt = None.
Proof.
  intros Hgrow fuel. apply (ticks_runaway heightAt Hgrow fuel 0%nat []).
Qed.

Lemma autoScroll_never_ends_witness :
  autoScroll 50 (fun k => 100 * (Z.of_nat k + 2)) = None.
Proof.
  apply (autoScroll_never_ends (fun k => 100 * (Z.of_nat k + 2))).
  intros k. unfold distance. lia.
Defined.

End ScrollFacts.

(* ------------------------------------------------------------------ *)
(** * Properties of the command line helpers *)
(* ------------------------------------------------------------------ *)

Module CliFacts.
Import Cli.

(** A line of text: no line feed in it. *)
Fixpoint oneLine (s : string) : Prop :=
  match s with
  | String c r => c <> newline /\ oneLine r
  | EmptyString => True
  end.

(** The lines joined by line feeds. *)
Definition unlines (lines : list string) : string :=
  String.concat (String newline EmptyString) lines.

Lemma string_app_assoc (a b c : string) : ((a ++ b) ++ c = a ++ (b ++ c))%string.
Proof. induction a as [|x a IH]; cbn; [reflexivity|]. now rewrite IH. Qed.

Lemma string_app_nil (a : string) : (a ++ "")%string = a.
Proof. induction a as [|x a IH]; cbn; [reflexivity|]. now rewrite IH. Qed.

Lemma splitOn_line l :
  oneLine l ->
  forall cur rest,
    splitOn newline cur (l ++ rest) = splitOn newline (cur ++ l) rest.
Proof.
  induction l as [|c l IH]; intros Hl cur rest; cbn.
  - now rewrite string_app_nil.
  - destruct Hl as (Hc & Hl).
    destruct (Ascii.eqb_spec c newline) as [E|_]; [contradiction|].
    rewrite IH by assumption. rewrite string_app_assoc. reflexivity.
Qed.

Lemma splitOn_unlines lines :
  Forall oneLine lines ->
  lines <> [] ->
  splitOn newline EmptyString (unlines lines) = lines.
Proof.
  unfold unlines. induction 1 as [|l ls Hl Hls IH]; intros Hne; [now elim Hne|].
  destruct ls as [|l2 ls].
  - cbn [concat]. rewrite <- (string_app_nil l) at 1.
    rewrite splitOn_line by assumption. reflexivity.
  - cbn [concat] in *. rewrite splitOn_line by assumption. cbn [append splitOn].
    rewrite ?Ascii.eqb_refl. cbn [append]. f_equal. apply IH. discriminate.
Qed.

Lemma splitOn_unlines_trailing lines :
  Forall oneLine lines ->
  lines <> [] ->
  splitOn newline EmptyString (unlines lines ++ String newline EmptyString)
  = lines ++ [EmptyString].
Proof.
  unfold unlines. induction 1 as [|l ls Hl Hls IH]; intros Hne; [now elim Hne|].
  destruct ls as [|l2 ls].
  - cbn [concat]. rewrite splitOn_line by assumption. cbn. rewrite ?Ascii.eqb_refl.
    reflexivity.
  - cbn [concat] in *. rewrite !string_app_assoc.
    rewrite splitOn_line by assumption. cbn [append splitOn].
    rewrite ?Ascii.eqb_refl. cbn [append app]. f_equal. apply IH. discriminate.
Qed.

Lemma filter_keep {A} (f : A -> bool) l :
  Forall (fun x => f x = true) l -> filter f l = l.
Proof.
  induction 1 as [|x l Hx _ IH]; cbn; [reflexivity|]. now rewrite Hx, IH.
Qed.

(** A URL file written one URL per line is read back as written:
    when no line is blank, the lines of the file are the URLs
    collected, in order, with or without a line feed after the last
    one. *)
Theorem fileUrls_lines lines :
  Forall oneLine lines ->
  Forall (fun l => JS.truthy (JS.trim l) = true) lines ->
  lines <> [] ->
  fileUrls (unlines lines) = lines
  /\ fileUrls (unlines lines ++ String newline EmptyString) = lines.
Proof.
  intros Hone Hfull Hne. unfold fileUrls. split.
  - rewrite splitOn_unlines by assumption. now apply filter_keep.
  - rewrite splitOn_unlines_trailing by assumption.
    rewrite filter_app, filter_keep by assumption. cbn. now rewrite app_nil_r.
Qed.

Lemma fileUrls_lines_witness :
  let lines := ["https://a.io/p"; "https://b.io/q"] in
  fileUrls (unlines lines) = lines
  /\ fileUrls (unlines lines ++ String newline EmptyString) = lines.
Proof.
  intros lines. apply (fileUrls_lines lines).
  - repeat constructor; cbn; repeat split; intros H; discriminate H.
  - repeat constructor.
  - discriminate.
Defined.

(** Occurrences of a character. *)
Fixpoint occurrences (c : ascii) (s : string) : nat :=
  match s with
  | String x r => (if Ascii.eqb x c then 1 else 0) + occurrences c r
  | EmptyString => 0
  end.

Lemma occurrences_app c a b :
  occurrences c (a ++ b) = (occurrences c a + occurrences c b)%nat.
Proof. induction a as [|x a IH]; cbn; [reflexivity|]. rewrite IH. lia. Qed.

Lemma occurrences_replaceDots s : occurrences "."%char (Archiver.replaceDots s) = 0%nat.
Proof.
  induction s as [|x s IH]; [reflexivity|].
  cbn [Archiver.replaceDots occurrences]. rewrite IH.
  destruct (Ascii.eqb x "."%char) eqn:E; [reflexivity|]. rewrite E. reflexivity.
Qed.

Lemma occurrences_dashes c s :
  c = "."%char \/ c = ":"%char -> occurrences c (dashes s) = 0%nat.
Proof.
  intros Hc. induction s as [|x s IH]; [reflexivity|].
  cbn [dashes occurrences]. rewrite IH.
  destruct (Ascii.eqb x ":"%char || Ascii.eqb x "."%char) eqn:E.
  - destruct Hc as [-> | ->]; reflexivity.
  - apply orb_false_iff in E as (E1 & E2).
    destruct Hc as [-> | ->]; [rewrite E2 | rewrite E1]; reflexivity.
Qed.

Lemma occurrences_substring c s :
  forall n, (occurrences c (String.substring 0 n s) <= occurrences c s)%nat.
Proof.
  induction s as [|x s IH]; intros [|n]; cbn; try lia.
  specialize (IH n). lia.
Qed.

(** The file name made of a host name and a time stamp has exactly
    one dot, that of its [.pdf] extension, and the time stamp in it
    has no colon: the dots of the host name become underscores, the
    dots and colons of the time become dashes. *)
Theorem fileName_one_dot hostname iso :
  occurrences "."%char (fileName hostname iso) = 1%nat
  /\ occurrences ":"%char (timestamp iso) = 0%nat.
Proof.
  unfold fileName, timestamp, dropLast5. split.
  - rewrite !occurrences_app, occurrences_replaceDots.
    pose proof (occurrences_substring "."%char (dashes iso)
                  (String.length (dashes iso) - 5)) as H.
    rewrite occurrences_dashes in H by (left; reflexivity).
    cbn. lia.
  - pose proof (occurrences_substring ":"%char (dashes iso)
                  (String.length (dashes iso) - 5)) as H.
    rewrite occurrences_dashes in H by (right; reflexivity). lia.
Qed.

Example fileName_sample :
  fileName "overreacted.io" "2024-09-25T14:30:45.123Z"
  = "overreacted_io_2024-09-25T14-30-45.pdf".
Proof. reflexivity. Qed.

End CliFacts.

(* ------------------------------------------------------------------ *)
(** * Further properties of the archiver *)
(* ------------------------------------------------------------------ *)

Module ArchiverMore.
Import Pdf Toc Viewport Archiver ArchiverFacts.

(** ** Which width options switch the measuring off *)

(** The archiver made from a width option leaves the measuring out
    exactly when the option parses to a number other than 0 and 1280;
    ['auto'], text that is no number, 0 and 1280 all lead to
    measuring. *)
Theorem detection_skipped_iff s fp :
  wantsDetection (viewportWidth (construct (mkOptions (Some s) fp))) = false
  <-> exists n, JS.parseInt s = Some n /\ n <> 0 /\ n <> 1280.
Proof.
  unfold construct. cbn [o_width o_fullPage viewportWidth].
  destruct (String.eqb_spec s "auto") as [->|Hs].
  - cbn. split; [discriminate|]. intros (n & Hn & _). discriminate Hn.
  - destruct (JS.parseInt s) as [n|].
    + destruct (Z.eqb_spec n 0) as [->|H0]; cbn [wantsDetection].
      * split; [discriminate|]. intros (n & Hn & Hz & _). congruence.
      * rewrite Z.eqb_neq. split.
        -- intros H1. now exists n.
        -- intros (n' & Hn & _ & H1). congruence.
    + cbn. split; [discriminate|]. intros (n & Hn & _). discriminate Hn.
Qed.

(** ** What a job calls *)

(** A method whose new calls all satisfy [P] and which keeps [I] true
    of the page's viewport. *)
Definition Tracks (I : option Z -> Prop) (P : Call -> Prop) {A} (m : Job A) : Prop :=
  forall a,
    I (page a) ->
    I (page (fst (m a)))
    /\ exists new, calls (fst (m a)) = calls a ++ new /\ Forall P new.

Lemma Tracks_ret I P {A} (x : A) : Tracks I P (ret x).
Proof. intros a Ha. split; [exact Ha|]. exists []. now rewrite app_nil_r. Qed.

Lemma Tracks_lift I P {A} (r : Result A) : Tracks I P (lift r).
Proof. intros a Ha. split; [exact Ha|]. exists []. now rewrite app_nil_r. Qed.

Lemma Tracks_throwIf I P o : Tracks I P (throwIf o).
Proof.
  intros a Ha. unfold throwIf.
  destruct o; (split; [exact Ha|]); exists []; now rewrite app_nil_r.
Qed.

Lemma Tracks_call I P c : P c -> Tracks I P (call c).
Proof.
  intros Hc a Ha. split; [exact Ha|]. exists [c]. split; [reflexivity|]. now constructor.
Qed.

Lemma Tracks_bind I P {A B} (m : Job A) (k : A -> Job B) :
  Tracks I P m -> (forall x, Tracks I P (k x)) -> Tracks I P (bindJ m k).
Proof.
  intros Hm Hk a Ha. unfold bindJ.
  destruct (Hm a Ha) as (Hi & new & Hnew & Hall).
  destruct (m a) as [a1 [x|e]]; cbn [fst] in *.
  - destruct (Hk x a1 Hi) as (Hi2 & new2 & Hnew2 & Hall2).
    split; [exact Hi2|]. exists (new ++ new2).
    rewrite Hnew2, Hnew, app_assoc. split; [reflexivity|]. now apply Forall_app.
  - split; [exact Hi|]. now exists new.
Qed.

Lemma Tracks_setViewport P w h :
  P (SetViewport w h) -> Tracks (fun _ => True) P (setViewport w h).
Proof.
  intros Hc a _. split; [exact I|]. unfold setViewport.
  destruct (page a); cbn [fst calls].
  - exists [SetViewport w h]. split; [reflexivity|]. now constructor.
  - exists []. now rewrite app_nil_r.
Qed.

Lemma Tracks_setViewportWidth I P w : Tracks I P (setViewportWidth w).
Proof. intros a Ha. split; [exact Ha|]. exists []. cbn. now rewrite app_nil_r. Qed.

Lemma Tracks_extractHeadings I P site url :
  P (Goto url) -> P AutoScroll -> P QueryHeadings ->
  Tracks I P (extractHeadings site url).
Proof.
  intros H1 H2 H3. unfold extractHeadings.
  repeat (apply Tracks_bind; [|intros ?]);
    auto using Tracks_call, Tracks_throwIf, Tracks_lift, Tracks_ret.
Qed.

Lemma Tracks_printPdf I P site :
  (forall w fp, I (Some w) -> P (PrintPdf w fp)) ->
  Tracks I P (printPdf site).
Proof.
  intros HP a Ha. unfold printPdf. destruct (page a) as [w|] eqn:Hp.
  - assert (HT : Tracks I P (bindJ (call (PrintPdf w (fullPage a)))
                               (fun _ => lift (printed site w (fullPage a))))).
    { apply Tracks_bind; [apply Tracks_call; now apply HP | intros _; apply Tracks_lift]. }
    apply HT. now rewrite Hp.
  - cbn [fst]. split; [now rewrite Hp|]. exists []. now rewrite app_nil_r.
Qed.

Lemma Tracks_resolveViewport P site url :
  (forall w h, P (SetViewport w h)) -> P (Goto url) -> P MeasureGeometry ->
  Tracks (fun _ => True) P (resolveViewport site url).
Proof.
  intros H1 H2 H3 a Ha. unfold resolveViewport.
  destruct (wantsDetection (viewportWidth a)).
  - revert a Ha.
    change (Tracks (fun _ => True) P
              (bindJ (detectOptimalViewport site url)
                     (fun optimalWidth =>
                        bindJ (setViewportWidth (Px optimalWidth))
                              (fun _ => setViewport optimalWidth 720)))).
    unfold detectOptimalViewport.
    repeat (apply Tracks_bind; [|intros ?]);
      auto using Tracks_call, Tracks_throwIf, Tracks_ret, Tracks_setViewport,
                 Tracks_setViewportWidth.
  - split; [exact I|]. exists []. cbn. now rewrite app_nil_r.
Qed.

(** What the calls of a job for [url] with output [outputPath] look
    like: it navigates to its own URL only, writes to its own path
    only and never sleeps. *)
Definition Within (url outputPath : string) (c : Call) : Prop :=
  match c with
  | Goto u => u = url
  | WriteFile p _ => p = outputPath
  | Sleep _ => False
  | _ => True
  end.

Section Jobs.

Variable size : PageSize.
Variable today : string.
Variable now : Z.

Local Abbreviation job := (generatePDFWithTOC size today now).

Lemma Tracks_job_tail I P site url outputPath :
  P (Goto url) -> P AutoScroll -> P QueryHeadings ->
  (forall b, P (AddStyleTag b)) ->
  (forall w fp, I (Some w) -> P (PrintPdf w fp)) ->
  (forall out, P (WriteFile outputPath out)) ->
  Tracks I P
    (headings <~ extractHeadings site url ;;
     call (AddStyleTag false) ;;;
     (if hasOverflow site then call (AddStyleTag true) else ret tt) ;;;
     pdfBuffer <~ printPdf site ;;
     out <~ lift (composeOutput size today now pdfBuffer headings (pageTitle site) url) ;;
     call (WriteFile outputPath out) ;;;
     throwIf (written site) ;;;
     ret outputPath).
Proof.
  intros H1 H2 H3 H4 H5 H6.
  apply Tracks_bind; [now apply Tracks_extractHeadings | intros headings].
  apply Tracks_bind; [now apply Tracks_call | intros _].
  apply Tracks_bind;
    [destruct (hasOverflow site); [now apply Tracks_call | apply Tracks_ret] | intros _].
  apply Tracks_bind; [now apply Tracks_printPdf | intros pdfBuffer].
  apply Tracks_bind; [apply Tracks_lift | intros out].
  apply Tracks_bind; [now apply Tracks_call | intros _].
  apply Tracks_bind; [apply Tracks_throwIf | intros _].
  apply Tracks_ret.
Qed.

Lemma Tracks_job P site url outputPath :
  (forall w h, P (SetViewport w h)) -> P (Goto url) -> P MeasureGeometry ->
  P AutoScroll -> P QueryHeadings ->
  (forall b, P (AddStyleTag b)) ->
  (forall w fp, P (PrintPdf w fp)) ->
  (forall out, P (WriteFile outputPath out)) ->
  Tracks (fun _ => True) P (job site url outputPath).
Proof.
  intros. unfold generatePDFWithTOC.
  apply Tracks_bind; [now apply Tracks_resolveViewport | intros _].
  apply Tracks_job_tail; auto.
Qed.

(** Whatever happens in a job, the calls it adds concern its own URL
    and its own output path: every navigation goes to the URL of the
    job, every write goes to the output path of the job, and the job
    itself never waits. *)
Theorem job_stays_within site url outputPath a :
  exists new,
    calls (fst (job site url outputPath a)) = calls a ++ new
    /\ Forall (Within url outputPath) new.
Proof.
  apply (Tracks_job (Within url outputPath) site url outputPath); cbn; auto.
Qed.

(** ** What a job writes *)

Definition isWrite (c : Call) : bool :=
  match c with WriteFile _ _ => true | _ => false end.

Definition writes (cs : list Call) : list Call := filter isWrite cs.

Definition NoWrite (c : Call) : Prop := isWrite c = false.

Lemma writes_none cs : Forall NoWrite cs -> writes cs = [].
Proof.
  induction 1 as [|c cs Hc _ IH]; [reflexivity|].
  unfold writes in *. cbn [filter]. now rewrite Hc.
Qed.

(** A method that writes the output once when it returns and not at
    all when it throws for another reason than the write itself. *)
Definition WritesOnce (site : Site) (outputPath : string) (m : Job string) : Prop :=
  forall a,
    exists new,
      calls (fst (m a)) = calls a ++ new
      /\ (forall p, snd (m a) = Ok p ->
                    p = outputPath
                    /\ exists out, writes new = [WriteFile outputPath out])
      /\ (forall e, snd (m a) = Err e -> written site = None -> writes new = []).

Lemma WritesOnce_after site outputPath {A} (m : Job A) (k : A -> Job string) :
  Tracks (fun _ => True) NoWrite m ->
  (forall x, WritesOnce site outputPath (k x)) ->
  WritesOnce site outputPath (bindJ m k).
Proof.
  intros Hm Hk a. unfold bindJ.
  destruct (Hm a I) as (_ & n1 & Hn1 & Hall).
  destruct (m a) as [a1 [x|e]]; cbn [fst snd] in *.
  - destruct (Hk x a1) as (n2 & Hn2 & Hok & Herr).
    exists (n1 ++ n2). rewrite Hn2, Hn1, app_assoc. split; [reflexivity|].
    unfold writes in *. rewrite filter_app.
    fold (writes n1). rewrite (writes_none n1 Hall). cbn [app]. split; assumption.
  - exists n1. split; [exact Hn1|]. split.
    + intros p Hp. discriminate Hp.
    + intros _ _ _. now apply writes_none.
Qed.

Lemma WritesOnce_write site outputPath out :
  WritesOnce site outputPath
    (call (WriteFile outputPath out) ;;; throwIf (written site) ;;; ret outputPath).
Proof.
  intros a. exists [WriteFile outputPath out].
  unfold bindJ, call, throwIf, ret. destruct (written site) as [e|]; cbn [fst snd calls].
  - split; [reflexivity|]. split.
    + intros p Hp. discriminate Hp.
    + intros _ _ Hw. discriminate Hw.
  - split; [reflexivity|]. split.
    + intros p Hp. injection Hp as <-. split; [reflexivity|]. now exists out.
    + intros e He. discriminate He.
Qed.

(** A job writes its output file exactly once, at its output path,
    when it returns (and it returns that path); when it throws before
    the write (navigation, extraction, printing or composition failed)
    nothing is written at all. *)
Theorem job_writes_once site url outputPath a :
  exists new,
    calls (fst (job site url outputPath a)) = calls a ++ new
    /\ (forall p, snd (job site url outputPath a) = Ok p ->
                  p = outputPath
                  /\ exists out, writes new = [WriteFile outputPath out])
    /\ (forall e, snd (job site url outputPath a) = Err e ->
                  written site = None -> writes new = []).
Proof.
  revert a. change (WritesOnce site outputPath (job site url outputPath)).
  unfold generatePDFWithTOC.
  apply WritesOnce_after;
    [apply Tracks_resolveViewport; intros; reflexivity | intros _].
  apply WritesOnce_after;
    [apply Tracks_extractHeadings; reflexivity | intros headings].
  apply WritesOnce_after; [apply Tracks_call; reflexivity | intros _].
  apply WritesOnce_after;
    [destruct (hasOverflow site); [apply Tracks_call; reflexivity | apply Tracks_ret]
    | intros _].
  apply WritesOnce_after; [apply Tracks_printPdf; intros; reflexivity | intros pdfBuffer].
  apply WritesOnce_after; [apply Tracks_lift | intros out].
  apply WritesOnce_write.
Qed.

(** ** Measuring jobs *)

Definition PrintsAt (r : Z) (c : Call) : Prop :=
  match c with
  | PrintPdf w _ => w = r
  | _ => True
  end.

Lemma resolveViewport_ok site url a a1 :
  wantsDetection (viewportWidth a) = true ->
  resolveViewport site url a = (a1, Ok tt) ->
  page a1 = Some (recommendedWidth (measure (geometry site)))
  /\ viewportWidth a1 = Px (recommendedWidth (measure (geometry site))).
Proof.
  intros Hauto. unfold resolveViewport. rewrite Hauto.
  unfold bindJ, detectOptimalViewport, bindJ, setViewport, call, throwIf,
    setViewportWidth, ret.
  destruct (page a) as [v|]; cbn; [|discriminate].
  destruct (gotoDetect site) as [e|]; cbn; [discriminate|].
  intros H. injection H as <-. split; reflexivity.
Qed.

(** A job that measures prints at the width recommended for its own
    page, which lies in [[768, 1400]]: no [page.pdf] call of the job
    is made at another viewport width. *)
Theorem measuring_job_prints_at_recommendation site url outputPath a :
  wantsDetection (viewportWidth a) = true ->
  exists new,
    calls (fst (job site url outputPath a)) = calls a ++ new
    /\ (forall w fp,
          In (PrintPdf w fp) new ->
          w = recommendedWidth (measure (geometry site)) /\ 768 <= w <= 1400).
Proof.
  intros Hauto.
  set (r := recommendedWidth (measure (geometry site))).
  assert (Hr : 768 <= r <= 1400)
    by (subst r; cbn [measure recommendedWidth]; unfold recommend; lia).
  assert (Hnew : exists new,
             calls (fst (job site url outputPath a)) = calls a ++ new
             /\ Forall (PrintsAt r) new).
  { unfold generatePDFWithTOC.
    match goal with
    | |- context [bindJ (resolveViewport site url) ?k] =>
        assert (Hrest : Tracks (fun p => p = Some r) (PrintsAt r) (k tt))
    end.
    { apply Tracks_job_tail; cbn; auto. intros w fp Hw. congruence. }
    destruct (Tracks_resolveViewport (PrintsAt r) site url
                ltac:(intros; exact I) I I a I) as (_ & n1 & Hn1 & Hall1).
    unfold bindJ at 1.
    destruct (resolveViewport site url a) as [a1 [[]|e]] eqn:E; cbn [fst] in *.
    - destruct (resolveViewport_ok site url a a1 Hauto E) as (Hp & _).
      destruct (Hrest a1 Hp) as (_ & n2 & Hn2 & Hall2).
      exists (n1 ++ n2). split.
      + cbn beta in Hn2. rewrite Hn2, Hn1, app_assoc. reflexivity.
      + now apply Forall_app.
    - now exists n1. }
  destruct Hnew as (new & Hcalls & Hall). exists new. split; [exact Hcalls|].
  intros w fp Hin. rewrite Forall_forall in Hall.
  specialize (Hall _ Hin). cbn in Hall. subst w. split; [reflexivity | exact Hr].
Qed.

(** A navigation that fails while the page is measured fails the job
    with that error before anything is extracted, printed or written;
    the archiver keeps its width setting, so the next job measures
    again, and the page is left at the 1920 pixels wide reference
    viewport. *)
Theorem measuring_timeout site url outputPath a v e :
  wantsDetection (viewportWidth a) = true ->
  page a = Some v ->
  gotoDetect site = Some e ->
  job site url outputPath a =
    (mkArchiver (viewportWidth a) (fullPage a) (Some 1920)
                (calls a ++ [SetViewport 1920 1080; Goto url]),
     Err e).
Proof.
  intros Hauto Hp Hg.
  unfold generatePDFWithTOC, bindJ at 1, resolveViewport. rewrite Hauto.
  unfold bindJ, detectOptimalViewport, bindJ, setViewport, call, throwIf.
  rewrite Hp, Hg. cbn. now rewrite <- app_assoc.
Qed.

End Jobs.

Lemma measuring_job_prints_at_recommendation_witness :
  let a := fst (init None (construct (mkOptions (Some "auto") false))) in
  let run := generatePDFWithTOC A4 "September 25, 2024" 0 (samplePage narrowRoot)
                                "https://a.io/p" "out.pdf" a in
  wantsDetection (viewportWidth a) = true
  /\ In (PrintPdf 840 false) (calls (fst run))
  /\ exists new,
       calls (fst run) = calls a ++ new
       /\ (forall w fp, In (PrintPdf w fp) new -> w = 840 /\ 768 <= w <= 1400).
Proof.
  intros a run. split; [reflexivity|]. split; [vm_compute; tauto|].
  exact (measuring_job_prints_at_recommendation A4 "September 25, 2024" 0
           (samplePage narrowRoot) "https://a.io/p" "out.pdf" a eq_refl).
Defined.

Lemma measuring_timeout_witness :
  let a := fst (init None (construct (mkOptions (Some "auto") false))) in
  generatePDFWithTOC A4 "September 25, 2024" 0 stalledPage
                     "https://slow.io/p" "out.pdf" a =
  (mkArchiver Auto false (Some 1920)
              [SetViewport 1280 720; SetViewport 1920 1080; Goto "https://slow.io/p"],
   Err (mkError "Navigation timeout of 60000 ms exceeded")).
Proof.
  intros a.
  exact (measuring_timeout A4 "September 25, 2024" 0 stalledPage "https://slow.io/p"
           "out.pdf" a 1280 (mkError "Navigation timeout of 60000 ms exceeded")
           eq_refl eq_refl eq_refl).
Defined.

Lemma job_writes_once_witness :
  let a := fst (init None (construct (mkOptions (Some "auto") false))) in
  let run := generatePDFWithTOC A4 "September 25, 2024" 0 (samplePage narrowRoot)
                                "https://a.io/p" "out.pdf" a in
  snd run = Ok "out.pdf"
  /\ exists new out,
       calls (fst run) = calls a ++ new /\ writes new = [WriteFile "out.pdf" out].
Proof.
  intros a run. split; [reflexivity|].
  destruct (job_writes_once A4 "September 25, 2024" 0 (samplePage narrowRoot)
              "https://a.io/p" "out.pdf" a) as (new & Hnew & Hok & _).
  destruct (Hok "out.pdf" eq_refl) as (_ & out & Hout).
  now exists new, out.
Defined.

(** ** The whole command *)

Section Command.

Variable size : PageSize.
Variable today : string.
Variable now : Z.
Variable hostname : string -> string.
Variable pathJoin : string -> string -> string.
Variable timestamp : nat -> string.
Variable siteAt : nat -> string -> Site.
Variable validURL : string -> bool.

Local Abbreviation step :=
  (iteration size today now hostname pathJoin timestamp siteAt).
Local Abbreviation loop :=
  (processUrls size today now hostname pathJoin timestamp siteAt).
Local Abbreviation command :=
  (action size today now hostname pathJoin timestamp siteAt validURL).

(** A call of a batch over [urls]: a navigation goes to one of them. *)
Definition Visits (urls : list string) (c : Call) : Prop :=
  match c with
  | Goto u => In u urls
  | _ => True
  end.

Lemma Visits_more urls urls' c :
  (forall u, In u urls -> In u urls') -> Visits urls c -> Visits urls' c.
Proof. intros Hsub. destruct c; cbn; auto. Qed.

Lemma step_visits outputDir delay m i url a :
  exists new,
    calls (fst (step outputDir delay m i url a)) = calls a ++ new
    /\ Forall (Visits [url]) new.
Proof.
  unfold iteration.
  destruct (job_stays_within size today now (siteAt i url) url
              (outputPathOf hostname pathJoin timestamp outputDir i url) a)
    as (new & Hnew & Hall).
  assert (Hvis : Forall (Visits [url]) new).
  { eapply Forall_impl; [|exact Hall]. intros c Hc.
    destruct c; cbn in *; auto. }
  destruct (generatePDFWithTOC size today now (siteAt i url) url _ a) as [a1 [p|e]];
    cbn [fst] in *.
  - destruct ((Z.of_nat i <? Z.of_nat m - 1) && (Z.of_nat m >? 1)).
    + exists (new ++ [Sleep delay]). cbn [call fst calls].
      rewrite Hnew, app_assoc. split; [reflexivity|].
      apply Forall_app. split; [exact Hvis | now constructor].
    + now exists new.
  - now exists new.
Qed.

Lemma loop_visits outputDir delay m urls :
  forall i a results,
    exists new,
      calls (fst (loop outputDir delay m i urls a results)) = calls a ++ new
      /\ Forall (Visits urls) new.
Proof.
  induction urls as [|url urls IH]; intros i a results; cbn [processUrls fst].
  - exists []. now rewrite app_nil_r.
  - destruct (step_visits outputDir delay m i url a) as (n1 & Hn1 & Hall1).
    destruct (step outputDir delay m i url a) as [a1 r]. cbn [fst] in *.
    destruct (IH (S i) a1 (results ++ [r])) as (n2 & Hn2 & Hall2).
    exists (n1 ++ n2). rewrite Hn2, Hn1, app_assoc. split; [reflexivity|].
    apply Forall_app. split.
    + eapply Forall_impl; [|exact Hall1]. intros c.
      apply Visits_more. intros u [<-|[]]. now left.
    + eapply Forall_impl; [|exact Hall2]. intros c.
      apply Visits_more. intros u Hu. now right.
Qed.

(** The command only ever navigates to URLs that were given to it
    and that [new URL] accepts: an invalid entry is never visited,
    whatever else the batch contains. *)
Theorem only_valid_urls_visited urlsToProcess options mkdir launch u :
  In (Goto u) (calls (fst (command urlsToProcess options mkdir launch))) ->
  validURL u = true /\ In u urlsToProcess.
Proof.
  unfold action.
  destruct (Z.of_nat (List.length urlsToProcess) =? 0); [intros []|].
  destruct (Z.of_nat (List.length (filter validURL urlsToProcess)) =? 0); [intros []|].
  destruct mkdir; [intros []|].
  unfold init, bindJ, throwIf.
  destruct launch; cbn [fst]; [intros []|].
  match goal with
  | |- context [loop ?d ?dl ?m ?i ?us ?a0 ?rs] =>
      destruct (loop_visits d dl m us i a0 rs) as (new & Hnew & Hall);
      destruct (loop d dl m i us a0 rs) as [a1 results]
  end.
  cbn [fst calls] in *. rewrite Hnew. intros Hin.
  apply in_app_or in Hin as [Hin|Hin].
  - cbn in Hin. destruct Hin as [Hin|[]]. discriminate Hin.
  - rewrite Forall_forall in Hall. specialize (Hall _ Hin). cbn in Hall.
    apply filter_In in Hall as (H1 & H2). now split.
Qed.

Lemma filter_partition_length {A} (f g : A -> bool) l :
  (forall x, g x = negb (f x)) ->
  (List.length (filter f l) + List.length (filter g l) = List.length l)%nat.
Proof.
  intros Hfg. induction l as [|x l IH]; cbn; [reflexivity|].
  rewrite Hfg. destruct (f x); cbn; lia.
Qed.

(** When the command reaches its summary, every valid URL has exactly
    one record, either among the successes or among the failures:
    the two lists together are as long as the list of valid URLs, and
    every record is for a valid URL of the input. *)
Theorem summary_accounts_for_every_url urlsToProcess options mkdir launch ok bad :
  snd (command urlsToProcess options mkdir launch) = Summary ok bad ->
  (List.length ok + List.length bad
   = List.length (filter validURL urlsToProcess))%nat
  /\ Forall (fun r => r_status r = success
                      /\ In (r_url r) (filter validURL urlsToProcess)) ok
  /\ Forall (fun r => r_status r = failed
                      /\ In (r_url r) (filter validURL urlsToProcess)) bad.
Proof.
  unfold action.
  destruct (Z.of_nat (List.length urlsToProcess) =? 0); [discriminate|].
  destruct (Z.of_nat (List.length (filter validURL urlsToProcess)) =? 0); [discriminate|].
  destruct mkdir; [discriminate|].
  destruct (init launch _) as [a0 [[]|e]]; [|discriminate].
  match goal with
  | |- context [loop ?d ?dl ?m ?i ?us ?a ?rs] =>
      destruct (loop_results size today now hostname pathJoin timestamp siteAt
                  d dl m us i a rs) as (new & Hnew & Hmap);
      destruct (loop d dl m i us a rs) as [a1 results]
  end.
  cbn [snd app] in *. subst results. intros H. injection H as <- <-.
  assert (Hin : forall r, In r new -> In (r_url r) (filter validURL urlsToProcess)).
  { intros r Hr. rewrite <- Hmap. now apply in_map. }
  split; [|split].
  - unfold successful, failedJobs.
    rewrite (filter_partition_length isSuccess isFailed new).
    + rewrite <- Hmap. now rewrite length_map.
    + intros r. unfold isSuccess, isFailed. now destruct (r_status r).
  - apply Forall_forall. intros r Hr. unfold successful in Hr.
    apply filter_In in Hr as (Hr & Hs). split; [|now apply Hin].
    unfold isSuccess in Hs. destruct (r_status r); [reflexivity | discriminate].
  - apply Forall_forall. intros r Hr. unfold failedJobs in Hr.
    apply filter_In in Hr as (Hr & Hs). split; [|now apply Hin].
    unfold isFailed in Hs. destruct (r_status r); [discriminate | reflexivity].
Qed.

End Command.

(** A run of the command on one invalid entry and two URLs, the
    first of which stalls. *)
Definition sampleCommand :=
  action A4 "September 25, 2024" 0 (fun url => url) String.append
         (fun _ => "2024-09-25T14-30-45") stalledThenFine
         (fun url => JS.startsWith "https://" url)
         ["not a url"; "https://slow.io/p"; "https://b.io/q"]
         (mkCli "./archive" "2000" "auto" false) None None.

Lemma only_valid_urls_visited_witness :
  In (Goto "https://b.io/q") (calls (fst sampleCommand))
  /\ JS.startsWith "https://" "https://b.io/q" = true
  /\ In "https://b.io/q" ["not a url"; "https://slow.io/p"; "https://b.io/q"].
Proof.
  assert (Hin : In (Goto "https://b.io/q") (calls (fst sampleCommand)))
    by (vm_compute; tauto).
  split; [exact Hin|].
  exact (only_valid_urls_visited A4 "September 25, 2024" 0 (fun url => url)
           String.append (fun _ => "2024-09-25T14-30-45") stalledThenFine
           (fun url => JS.startsWith "https://" url)
           ["not a url"; "https://slow.io/p"; "https://b.io/q"]
           (mkCli "./archive" "2000" "auto" false) None None "https://b.io/q" Hin).
Defined.

Lemma summary_accounts_for_every_url_witness :
  exists ok bad,
    snd sampleCommand = Summary ok bad
    /\ map r_url ok = ["https://b.io/q"]
    /\ map r_url bad = ["https://slow.io/p"]
    /\ (List.length ok + List.length bad = 2)%nat.
Proof.
  eexists _, _. split; [reflexivity|]. split; [reflexivity|]. split; [reflexivity|].
  exact (proj1 (summary_accounts_for_every_url A4 "September 25, 2024" 0
                  (fun url => url) String.append (fun _ => "2024-09-25T14-30-45")
                  stalledThenFine (fun url => JS.startsWith "https://" url)
                  ["not a url"; "https://slow.io/p"; "https://b.io/q"]
                  (mkCli "./archive" "2000" "auto" false) None None _ _ eq_refl)).
Defined.

End ArchiverMore.


(* ------------------------------------------------------------------ *)
(** * Properties of the earlier archiver *)
(* ------------------------------------------------------------------ *)

Module ArchiverV0Facts.
Import Pdf Toc Archiver ArchiverFacts.

(** The jobs of a batch, one after the other: site, URL and output
    path of each. *)
Definition runAll (size : PageSize) (today : string) (now : Z)
           (jobs : list (Site * string * string)) (a : BlogArchiver) : BlogArchiver :=
  fold_left (fun a '(site, url, outputPath) =>
               fst (ArchiverV0.generatePDFWithTOC size today now site url outputPath a))
            jobs a.

Lemma Keeps_job0 size today now n site url outputPath :
  Keeps n (ArchiverV0.generatePDFWithTOC size today now site url outputPath).
Proof.
  unfold ArchiverV0.generatePDFWithTOC.
  apply Keeps_bind; [apply Keeps_extractHeadings | intros headings].
  apply Keeps_bind; [apply Keeps_call; exact I | intros _].
  apply Keeps_bind; [apply Keeps_printPdf | intros pdfBuffer].
  apply Keeps_bind; [apply Keeps_lift | intros out].
  apply Keeps_bind; [apply Keeps_call; exact I | intros _].
  apply Keeps_bind; [apply Keeps_throwIf | intros _].
  apply Keeps_ret.
Qed.

(** The earlier archiver has no measuring at all: the width it is
    constructed with (the parsed option, or 1280 when the option is
    missing, no number or 0) is never 0, and every viewport set and
    every PDF printed in a run of any number of jobs has that width,
    1280 included. *)
Theorem v0_prints_at_configured_width size today now options jobs :
  exists w,
    viewportWidth (ArchiverV0.construct options) = Px w
    /\ w <> 0
    /\ Manual w (runAll size today now jobs
                        (fst (ArchiverV0.init None (ArchiverV0.construct options)))).
Proof.
  assert (Hc : exists w, ArchiverV0.construct options
                         = mkArchiver (Px w) (o_fullPage options) None [] /\ w <> 0).
  { unfold ArchiverV0.construct. destruct (o_width options) as [s|].
    - destruct (JS.parseInt s) as [n|].
      + destruct (Z.eqb_spec n 0); eexists; split; try reflexivity; lia.
      + eexists; split; [reflexivity | lia].
    - eexists; split; [reflexivity | lia]. }
  destruct Hc as (w & -> & Hw). exists w. split; [reflexivity|]. split; [exact Hw|].
  cbn [ArchiverV0.init bindJ throwIf fst viewportWidth fullPage calls app].
  assert (H0 : Manual w (mkArchiver (Px w) (o_fullPage options) (Some w)
                                    [SetViewport w 720])).
  { repeat split. repeat constructor. }
  revert H0. generalize (mkArchiver (Px w) (o_fullPage options) (Some w)
                                    [SetViewport w 720]).
  unfold runAll. induction jobs as [|[[site url] outputPath] jobs IH]; intros a Ha.
  - exact Ha.
  - cbn [fold_left]. apply IH. now apply Keeps_job0.
Qed.

End ArchiverV0Facts.

(* ------------------------------------------------------------------ *)
(** * Properties of the first generator *)
(* ------------------------------------------------------------------ *)

Module LegacyFacts.
Import Pdf Toc TocFacts.

(** The header block of the first generator. *)
Definition legacyHeaderOps (size : PageSize) (title url : string) : list DrawOp :=
  let y0 := height size - pt margin in
  [ mkDraw "Table of Contents" (pt margin) y0 24 HelveticaBold (0, 0, 0);
    mkDraw title (pt margin) (y0 - pt 40) 14 Helvetica (3, 3, 3);
    mkDraw url (pt margin) (y0 - pt 40 - pt 10) 10 Helvetica (4, 4, 7) ].

Lemma legacy_layout_shape size headings P title url :
  exists blanks,
    doc (Legacy.layoutTOC size headings P title url) =
    mkPage None (legacyHeaderOps size title url
                 ++ flat_map (entryOps size)
                      (log (Legacy.layoutTOC size headings P title url)))
    :: repeat blankPage blanks
    /\ map e_heading (log (Legacy.layoutTOC size headings P title url)) = headings
    /\ Forall (fun e => e_estimatedPage e = estimatedPage headings (e_heading e) P)
              (log (Legacy.layoutTOC size headings P title url)).
Proof.
  unfold Legacy.layoutTOC. cbn [addPage pages create app List.length].
  unfold drawText. cbn [updateNth rendered drawn blankPage app].
  match goal with
  | |- context [fold_left _ _ ?s] =>
      destruct (fold_layout size headings P headings s _ _ eq_refl)
        as [new b f r Hd Hd' Hl Hh He]
  end.
  cbn [doc] in Hd. injection Hd as <- <-.
  cbn [log app] in Hl. exists b. rewrite Hd', Hl. cbn [rendered drawn app].
  repeat split; auto.
  eapply Forall_impl; [|exact He]. now intros a (A1 & _).
Qed.

Lemma estimates_of_log (f : Heading -> Z) (l : list Entry) :
  Forall (fun e => e_estimatedPage e = f (e_heading e)) l ->
  map e_estimatedPage l = map f (map e_heading l).
Proof.
  induction 1 as [|e es He _ IH]; [reflexivity|].
  cbn [map]. now rewrite IH, He.
Qed.

(** The first generator and the archiver print the same page numbers
    for the same headings and content: the page-estimation loop is
    shared, only the header above it differs. *)
Theorem same_estimates size today headings P title url :
  map e_estimatedPage (log (Legacy.layoutTOC size headings P title url))
  = map e_estimatedPage (log (Toc.layoutTOC size today headings P title url)).
Proof.
  destruct (legacy_layout_shape size headings P title url) as (b & _ & Hh & Hall).
  destruct (TocFacts.layoutTOC_shape size today headings P title url)
    as (b' & _ & Hh' & Hall').
  rewrite (estimates_of_log (fun h => estimatedPage headings h P) _ Hall), Hh.
  rewrite (estimates_of_log (fun h => estimatedPage headings h P)
             (log (Toc.layoutTOC size today headings P title url))), Hh'.
  - reflexivity.
  - eapply Forall_impl; [|exact Hall']. now intros a (A1 & _).
Qed.

(** The first generator draws the document title and the URL as they
    are, whatever their length, and no archive date; heading texts are
    cut to 60 characters with an ellipsis as in the archiver. *)
Theorem legacy_texts size headings P title url :
  exists first blanks,
    doc (Legacy.layoutTOC size headings P title url) = first :: repeat blankPage blanks
    /\ map d_text (drawn first) =
       ["Table of Contents"; title; url]
       ++ flat_map (fun h => [truncated 60 (text h);
                              JS.toString (estimatedPage headings h P)]) headings.
Proof.
  destruct (legacy_layout_shape size headings P title url) as (b & Hdoc & Hh & Hall).
  eexists _, b. split; [exact Hdoc|].
  cbn [drawn]. rewrite map_app, (entry_texts size headings P), Hh by exact Hall.
  reflexivity.
Qed.

End LegacyFacts.

(* ------------------------------------------------------------------ *)
(** * Properties of the background script *)
(* ------------------------------------------------------------------ *)

Module BackgroundFacts.
Import Background.

(** The generation succeeds exactly when there is an active tab, the
    style sheet and the script go in, the URL parses, and the printing
    path that the browser offers does not throw; the reply then names
    the file after the host and the time, and otherwise carries the
    message of the first error and no file name. *)
Theorem generation_reply b url title :
  (success (handlePDFGeneration b url title) = true
   <-> activeTabs b <> []
       /\ insertCSS b = None
       /\ executeScript b = None
       /\ (exists h, hostnameOf b url = Ok h)
       /\ (if printing b then submitJob b = None else printToPDF b = None))
  /\ (forall h,
         success (handlePDFGeneration b url title) = true ->
         hostnameOf b url = Ok h ->
         handlePDFGeneration b url title
         = mkReply true (Some (Cli.fileName h (isoNow b))) None)
  /\ (success (handlePDFGeneration b url title) = false ->
      filename (handlePDFGeneration b url title) = None
      /\ exists m, error (handlePDFGeneration b url title) = Some m).
Proof.
  unfold handlePDFGeneration, generate, generateWithPrintingAPI, attempt, bind.
  destruct (activeTabs b) as [|t ts].
  { cbn. split; [|split].
    - split; [discriminate|]. intros (H & _). now elim H.
    - discriminate.
    - intros _. split; [reflexivity|]. eexists; reflexivity. }
  destruct (insertCSS b) as [e1|].
  { cbn. split; [|split].
    - split; [discriminate|]. intros (_ & H & _). discriminate H.
    - discriminate.
    - intros _. split; [reflexivity|]. eexists; reflexivity. }
  destruct (executeScript b) as [e2|].
  { cbn. split; [|split].
    - split; [discriminate|]. intros (_ & _ & H & _). discriminate H.
    - discriminate.
    - intros _. split; [reflexivity|]. eexists; reflexivity. }
  destruct (hostnameOf b url) as [h|e3].
  2:{ cbn. split; [|split].
      - split; [discriminate|]. intros (_ & _ & _ & (h & H) & _). discriminate H.
      - discriminate.
      - intros _. split; [reflexivity|]. eexists; reflexivity. }
  destruct (printing b); cbn [negb].
  - destruct (submitJob b) as [e4|]; cbn.
    + split; [|split].
      * split; [discriminate|]. intros (_ & _ & _ & _ & H). discriminate H.
      * discriminate.
      * intros _. split; [reflexivity|]. eexists; reflexivity.
    + split; [|split].
      * split; [|reflexivity]. intros _. repeat split; try discriminate. now exists h.
      * intros h' _ H. now injection H as <-.
      * discriminate.
  - destruct (printToPDF b) as [e5|]; cbn.
    + split; [|split].
      * split; [discriminate|]. intros (_ & _ & _ & _ & H). discriminate H.
      * discriminate.
      * intros _. split; [reflexivity|]. eexists; reflexivity.
    + split; [|split].
      * split; [|reflexivity]. intros _. repeat split; try discriminate. now exists h.
      * intros h' _ H. now injection H as <-.
      * discriminate.
Qed.

(** A browser in which everything works, with the printing API. *)
Definition goodBrowser : Browser :=
  mkBrowser [7] None None (fun _ => Ok "a.io") "2024-09-25T14:30:45.123Z"
            true None None.

(** A browser without an active tab. *)
Definition noTab : Browser :=
  mkBrowser [] None None (fun _ => Ok "a.io") "2024-09-25T14:30:45.123Z"
            true None None.

Lemma generation_reply_witness :
  handlePDFGeneration goodBrowser "https://a.io/p" "Post"
  = mkReply true (Some "a_io_2024-09-25T14-30-45.pdf") None
  /\ error (handlePDFGeneration noTab "https://a.io/p" "Post")
     = Some "No active tab found".
Proof.
  split; [|reflexivity].
  exact (proj1 (proj2 (generation_reply goodBrowser "https://a.io/p" "Post"))
               "a.io" eq_refl eq_refl).
Defined.

(** The context menu never reports a failed generation: when the
    generation fails no notification is created at all, and the
    'PDF Generation Failed' notification can only appear after a
    successful generation, when creating the success notification
    itself throws. *)
Theorem context_menu_silent_on_failure b menuItemId url title notifyError :
  (success (handlePDFGeneration b url title) = false ->
   onClicked b menuItemId url title notifyError = [])
  /\ (forall m,
         In (mkNotification "PDF Generation Failed" m)
            (onClicked b menuItemId url title notifyError) ->
         success (handlePDFGeneration b url title) = true
         /\ exists e, notifyError = Some e /\ m = message e).
Proof.
  unfold onClicked. destruct (String.eqb menuItemId "generate-pdf").
  - destruct (success (handlePDFGeneration b url title)).
    + split; [discriminate|]. intros m Hin.
      split; [reflexivity|].
      destruct notifyError as [e|].
      * destruct Hin as [H|[]]. injection H as <-. now exists e.
      * destruct Hin as [H|[]]. discriminate H.
    + split; [reflexivity|]. intros m [].
  - split; [reflexivity|]. intros m [].
Qed.

Lemma context_menu_silent_on_failure_witness :
  onClicked noTab "generate-pdf" "https://a.io/p" "Post" None = []
  /\ onClicked goodBrowser "generate-pdf" "https://a.io/p" "Post" None
     = [mkNotification "PDF Generated" "PDF saved as a_io_2024-09-25T14-30-45.pdf"].
Proof.
  split; [|reflexivity].
  exact (proj1 (context_menu_silent_on_failure noTab "generate-pdf" "https://a.io/p"
                  "Post" None) eq_refl).
Defined.

(** A click in the popup on a web page, answered by the background
    script: the popup disables the button, sends the message, enables
    the button again and then shows the success status (and closes
    two seconds later) when the generation succeeded, or the error
    message of the generation when it failed. *)
Theorem click_through b tab rest u :
  Popup.tabUrl tab = Some u ->
  u <> "" ->
  JS.startsWith "chrome://" u = false ->
  JS.startsWith "edge://" u = false ->
  let title := match Popup.tabTitle tab with Some t => t | None => "" end in
  let reply := handlePDFGeneration b u title in
  clickThrough b (tab :: rest) =
    [Popup.Generating true;
     Popup.ShowStatus "Preparing PDF generation..." "info";
     Popup.SendMessage "generatePDF" u (Popup.tabTitle tab);
     Popup.Generating false]
    ++ (if success reply
        then [Popup.ShowStatus "PDF generated successfully! Check your downloads."
                               "success";
              Popup.CloseLater 2000]
        else [Popup.ShowStatus
                (match error reply with
                 | Some m => if JS.truthy m then m else "Failed to generate PDF"
                 | None => "Failed to generate PDF"
                 end) "error"]).
Proof.
  intros Hu Hne Hc He title reply. subst title reply.
  unfold clickThrough. rewrite Hu. unfold onMessage. cbn [action reqUrl reqTitle].
  cbn [String.eqb Ascii.eqb Bool.eqb andb].
  unfold Popup.onGenerateClick. rewrite Hu, Hc, He.
  destruct u as [|c u]; [congruence|]. cbn [JS.truthy negb orb app].
  unfold Popup.onResponse. cbn [Popup.succeeded Popup.errorText].
  destruct (success (handlePDFGeneration b (String c u) _)); reflexivity.
Qed.

Lemma click_through_witness :
  clickThrough noTab [Popup.mkTab (Some "https://a.io/p") (Some "Post")] =
    [Popup.Generating true;
     Popup.ShowStatus "Preparing PDF generation..." "info";
     Popup.SendMessage "generatePDF" "https://a.io/p" (Some "Post");
     Popup.Generating false;
     Popup.ShowStatus "No active tab found" "error"].
Proof.
  apply (click_through noTab (Popup.mkTab (Some "https://a.io/p") (Some "Post")) []
           "https://a.io/p"); try reflexivity.
  discriminate.
Defined.

End BackgroundFacts.

(* ------------------------------------------------------------------ *)
(** * Further properties of the popup *)
(* ------------------------------------------------------------------ *)

Module PopupMore.
Import Popup.

(** The changes of the button's generating state among the effects. *)
Definition buttonStates (effects : list Effect) : list bool :=
  flat_map (fun e => match e with Generating on => [on] | _ => [] end) effects.

(** The button is never left disabled: a click either does not touch
    it, or disables it once and enables it again, whether the message
    is answered with success, answered with an error, or cannot be
    sent. *)
Theorem button_always_reenabled tabs sendError response :
  buttonStates (onGenerateClick tabs sendError response) = []
  \/ buttonStates (onGenerateClick tabs sendError response) = [true; false].
Proof.
  unfold onGenerateClick. destruct tabs as [|tab rest]; [now left|].
  destruct (tabUrl tab) as [u|]; [|now left].
  destruct (negb (JS.truthy u) || JS.startsWith "chrome://" u
            || JS.startsWith "edge://" u); [now left|].
  right. destruct sendError as [e|]; [reflexivity|].
  unfold onResponse. destruct (succeeded response); reflexivity.
Qed.

End PopupMore.
